(** * browser_use_agent.py: the execution-mode decision layer

    A shallow embedding of [unified-browser-platform/python-agent/
    browser_use_agent.py]: argument parsing in [main], provider resolution
    ([setup_llm]), session acquisition with its one-shot fallback
    ([create_agent]), the local execution path ([execute_task]), the remote
    path ([create_session_via_api], [execute_task_via_api],
    [monitor_task_progress]) and the exit status of the process.

    Conventions of the model.
    - A Python [str] is a [string] whose characters are read as the code
      points 0..255; [PyStr] gives the [str] methods the script calls, with
      [int()] and [repr()] as CPython 3.11 has them.
    - A Python [float] is an IEEE 754 binary64 number ([PyFloat]), rounded
      to nearest with ties to even.
    - [None] and JSON values share the type [json] ([JNull] is [None]).
    - The collaborators (browser-use's [Agent] and [BrowserSession], aiohttp,
      [os.environ]) are an oracle [Env]; each call is appended to the events
      of the run and may answer with a value or by raising an instance of
      [Exception].
    - Of the script's output only the bare result documents
      [print(json.dumps(..., indent=2))] are recorded; the decorated
      diagnostic lines, and the logging set-up that only serves them, are
      left out.
    - The module-level code (dotenv, [sys.path], the import of browser-use)
      has run; the model starts at [asyncio.run(main())]. *)

From Stdlib Require Import String Ascii List Bool Arith ZArith Lia.
From Stdlib Require Import Permutation SpecFloat DecimalString.
From Equations.Prop Require Import Equations Logic.
Import ListNotations.

Local Open Scope string_scope.
Local Open Scope list_scope.
Local Open Scope nat_scope.

(** ** Python [str] methods used by the script *)

Module PyStr.

Definition chars (s : string) : list ascii := list_ascii_of_string s.
Definition str (l : list ascii) : string := string_of_list_ascii l.

Definition code (c : ascii) : nat := nat_of_ascii c.

(** [str.isspace] on the code points below 256: TAB..CR, FS..US, SPACE,
    NEL (0x85) and NO-BREAK SPACE (0xa0). *)
Definition isspace (c : ascii) : bool :=
  let n := code c in
  ((9 <=? n) && (n <=? 13)) || ((28 <=? n) && (n <=? 32))
  || (n =? 133) || (n =? 160).

Definition space : ascii := " "%char.
Definition nbsp : ascii := ascii_of_nat 160.

Fixpoint lstrip_l (l : list ascii) : list ascii :=
  match l with
  | c :: l' => if isspace c then lstrip_l l' else l
  | [] => []
  end.

Definition rstrip_l (l : list ascii) : list ascii := rev (lstrip_l (rev l)).

Definition strip_l (l : list ascii) : list ascii := rstrip_l (lstrip_l l).

(** [s.strip()] *)
Definition strip (s : string) : string := str (strip_l (chars s)).

Fixpoint prefix_l (p l : list ascii) : bool :=
  match p, l with
  | [], _ => true
  | a :: p', b :: l' => Ascii.eqb a b && prefix_l p' l'
  | _ :: _, [] => false
  end.

(** [s.startswith(p)] *)
Definition startswith (p s : string) : bool := prefix_l (chars p) (chars s).

Fixpoint contains_l (sub l : list ascii) : bool :=
  prefix_l sub l ||
  match l with
  | [] => false
  | _ :: l' => contains_l sub l'
  end.

(** [sub in s] *)
Definition contains (sub s : string) : bool := contains_l (chars sub) (chars s).

(** Left-to-right replacement of the non-overlapping occurrences of a
    non-empty [old]; [skip] counts the characters of a matched occurrence
    still to be dropped. *)
Fixpoint replace_l (old new : list ascii) (skip : nat) (l : list ascii)
  : list ascii :=
  match l with
  | [] => []
  | c :: l' =>
      match skip with
      | S k => replace_l old new k l'
      | O => if prefix_l old l
             then new ++ replace_l old new (List.length old - 1) l'
             else c :: replace_l old new 0 l'
      end
  end.

(** [s.replace(old, new)], for the non-empty [old] of every call site. *)
Definition replace (old new s : string) : string :=
  str (replace_l (chars old) (chars new) 0 (chars s)).

(** [s.split(sep)] for a one-character separator: the fields between the
    separators, empty ones included. *)
Fixpoint split_l (sep : ascii) (l : list ascii) : list (list ascii) :=
  match l with
  | [] => [[]]
  | c :: l' =>
      if Ascii.eqb c sep then [] :: split_l sep l'
      else match split_l sep l' with
           | w :: ws => (c :: w) :: ws
           | [] => [[c]]
           end
  end.

Definition split (sep : ascii) (s : string) : list string :=
  map str (split_l sep (chars s)).

Definition nonempty_l (l : list ascii) : bool :=
  match l with [] => false | _ :: _ => true end.

(** Truth value of a [str]: non-empty. *)
Definition truthy (s : string) : bool :=
  match s with EmptyString => false | String _ _ => true end.

(** [str.lower] on the code points below 256: A..Z and the Latin-1 capitals
    0xc0..0xde (0xd7, the multiplication sign, apart) move up by 32. *)
Definition lower_char (c : ascii) : ascii :=
  let n := code c in
  if ((65 <=? n) && (n <=? 90))
     || ((192 <=? n) && (n <=? 222) && negb (n =? 215))
  then ascii_of_nat (n + 32) else c.

Definition lower (s : string) : string := str (map lower_char (chars s)).

(** *** [int(s)] *)

Definition is_digit (c : ascii) : bool :=
  let n := code c in (48 <=? n) && (n <=? 57).

Definition digit_val (c : ascii) : Z := Z.of_nat (code c - 48).

(** The characters [int()] skips around a literal: TAB..CR and SPACE, and of
    the other code points below 256 the Unicode spaces NEL (0x85) and
    NO-BREAK SPACE (0xa0).  FS..US (0x1c..0x1f), which [str.isspace]
    accepts, are not among them. *)
Definition int_space (c : ascii) : bool :=
  let n := code c in
  ((9 <=? n) && (n <=? 13)) || (n =? 32) || (n =? 133) || (n =? 160).

Fixpoint skip_int_space (l : list ascii) : list ascii :=
  match l with
  | c :: l' => if int_space c then skip_int_space l' else l
  | [] => []
  end.

(** The scan of the digits, with single underscores between them: the
    value, the number of digits and what follows them; [None] for two
    underscores in a row and for an underscore after the last digit. *)
Fixpoint scan_digits (acc : Z) (digits : nat) (after_underscore : bool)
    (l : list ascii) : option (Z * nat * list ascii) :=
  match l with
  | c :: l' =>
      if is_digit c
      then scan_digits (10 * acc + digit_val c)%Z (S digits) false l'
      else if Ascii.eqb c "_"%char
      then if after_underscore then None else scan_digits acc digits true l'
      else if after_underscore then None else Some (acc, digits, l)
  | [] => if after_underscore then None else Some (acc, digits, [])
  end.

(** The interpreter's limit on the digits of a decimal literal, at its
    default ([sys.get_int_max_str_digits()]); the script does not change
    it. *)
Definition max_str_digits : nat := 4300.

(** The three ends of [int(s)]: a value, [ValueError] for a string that is
    no literal, [ValueError] for a literal with too many digits. *)
Inductive int_result : Type :=
| IntValue (n : Z)
| InvalidLiteral
| TooManyDigits (digits : nat).

(** [int(s)] in base ten, in the order of CPython 3.11: whitespace, an
    optional sign, the digits (no underscore in front of them), the limit
    on their number, then whitespace up to the end of the string. *)
Definition int_parse (s : string) : int_result :=
  let l := skip_int_space (chars s) in
  let signed :=
    match l with
    | c :: l' =>
        if Ascii.eqb c "+"%char then (false, l')
        else if Ascii.eqb c "-"%char then (true, l')
        else (false, l)
    | [] => (false, [])
    end in
  match snd signed with
  | c :: _ =>
      if Ascii.eqb c "_"%char then InvalidLiteral
      else
        match scan_digits 0%Z 0 false (snd signed) with
        | None => InvalidLiteral
        | Some (n, digits, rest) =>
            if max_str_digits <? digits then TooManyDigits digits
            else if digits =? 0 then InvalidLiteral
            else
              match skip_int_space rest with
              | [] => IntValue (if fst signed then (- n)%Z else n)
              | _ :: _ => InvalidLiteral
              end
        end
  | [] => InvalidLiteral
  end.

(** [int(s)]; [None] stands for [ValueError]. *)
Definition int (s : string) : option Z :=
  match int_parse s with
  | IntValue n => Some n
  | _ => None
  end.

(** *** [repr(s)] *)

Definition quote : ascii := "'"%char.
Definition double_quote : ascii := ascii_of_nat 34.
Definition backslash : ascii := ascii_of_nat 92.

Definition hex_digit (n : nat) : ascii :=
  ascii_of_nat (if n <? 10 then 48 + n else 87 + n).

(** [str.isprintable] on the code points below 256: the ASCII range from
    SPACE to the tilde and the Latin-1 range from 0xa1 on, the soft hyphen
    0xad apart. *)
Definition isprintable (c : ascii) : bool :=
  let n := code c in
  ((32 <=? n) && (n <=? 126)) || ((161 <=? n) && negb (n =? 173)).

(** One character inside the quotes [q]: the quote and the backslash are
    escaped, TAB, LF and CR have their letters, what is not printable is
    written [\xhh]. *)
Definition repr_char (q c : ascii) : list ascii :=
  if Ascii.eqb c q || Ascii.eqb c backslash then [backslash; c]
  else if code c =? 9 then [backslash; "t"%char]
  else if code c =? 10 then [backslash; "n"%char]
  else if code c =? 13 then [backslash; "r"%char]
  else if isprintable c then [c]
  else [backslash; "x"%char;
        hex_digit (code c / 16); hex_digit (code c mod 16)].

(** The quote of [repr]: the double quote when the string holds a single
    quote and no double one, the single quote otherwise. *)
Definition repr_quote (l : list ascii) : ascii :=
  if existsb (Ascii.eqb quote) l && negb (existsb (Ascii.eqb double_quote) l)
  then double_quote else quote.

Definition repr_l (l : list ascii) : list ascii :=
  repr_quote l :: flat_map (repr_char (repr_quote l)) l ++ [repr_quote l].

(** [repr(s)] *)
Definition repr (s : string) : string := str (repr_l (chars s)).

(** [str(n)] for a natural number. *)
Definition decimal (n : nat) : string :=
  NilZero.string_of_uint (Nat.to_uint n).

(** A string is trimmed when neither end is a whitespace character. *)
Definition trimmed_l (l : list ascii) : Prop :=
  (forall c t, l = c :: t -> isspace c = false) /\
  (forall c t, l = t ++ [c] -> isspace c = false).

Definition trimmed (s : string) : Prop := trimmed_l (chars s).

(** The non-empty fields between spaces. *)
Definition words_l (l : list ascii) : list (list ascii) :=
  filter nonempty_l (split_l space l).

End PyStr.

(** ** Python [float] *)

(** IEEE 754 binary64: 53 bits of precision, every operation rounded to
    the nearest float, ties to even. *)
Module PyFloat.

Definition float : Type := spec_float.

Definition prec : Z := 53.
Definition emax : Z := 1024.

(** [0.0] *)
Definition zero : float := S754_zero false.

Definition add (x y : float) : float := SFadd prec emax x y.
Definition mul (x y : float) : float := SFmul prec emax x y.
Definition div (x y : float) : float := SFdiv prec emax x y.

(** The float nearest to an integer, infinite when the integer is out of
    the range of floats. *)
Definition nearest (n : Z) : float := binary_normalize prec emax n 0 false.

(** The conversion of an [int] operand of a float operation; [None] stands
    for [OverflowError]. *)
Definition of_int (n : Z) : option float :=
  match nearest n with
  | S754_infinity _ => None
  | x => Some x
  end.

(** The decimal literal of value [n / d], for integers that are floats:
    the float nearest to the quotient. *)
Definition literal (n d : Z) : float := div (nearest n) (nearest d).

(** Truth value of a float: the zeros are falsy. *)
Definition truthy (x : float) : bool :=
  match x with S754_zero _ => false | _ => true end.

End PyFloat.

Declare Scope float_scope.
Delimit Scope float_scope with float.
Bind Scope float_scope with PyFloat.float.
Notation "0" := PyFloat.zero : float_scope.
Infix "+" := PyFloat.add : float_scope.
Infix "*" := PyFloat.mul : float_scope.

(** ** Values, exceptions and the collaborators *)

(** A JSON value as [json.loads] and dict literals give it; [JNull] is
    [None], [JFloat] a float and the items of a [JDict] are in insertion
    order, the first binding of a key being its value. *)
#[warnings="-register-all"]
Inductive json : Type :=
| JNull
| JBool (b : bool)
| JInt (n : Z)
| JFloat (x : PyFloat.float)
| JStr (s : string)
| JList (l : list json)
| JDict (items : list (string * json)).

Fixpoint lookup (k : string) (items : list (string * json)) : option json :=
  match items with
  | [] => None
  | (k', v) :: items' => if String.eqb k k' then Some v else lookup k items'
  end.

(** Truth value of a Python object ([if v:], [not v]). *)
Definition json_truthy (v : json) : bool :=
  match v with
  | JNull => false
  | JBool b => b
  | JInt n => negb (n =? 0)%Z
  | JFloat x => PyFloat.truthy x
  | JStr s => PyStr.truthy s
  | JList l => match l with [] => false | _ => true end
  | JDict items => match items with [] => false | _ => true end
  end.

Definition opt_truthy (o : option string) : bool :=
  match o with Some s => PyStr.truthy s | None => false end.

Definition json_of_opt (o : option string) : json :=
  match o with Some s => JStr s | None => JNull end.

(** The classes of exception the script tells apart; a class stands for its
    subclasses too. *)
Inductive exn_class : Type :=
| ValueError
| IndexError
| ImportError
| AttributeError
| OtherException (name : string).

(** What a [raise] carries: an instance of [Exception] with its message
    ([str(e)]), or the [SystemExit] of [sys.exit], which [except Exception]
    does not catch. *)
Inductive exn : Type :=
| Exception (c : exn_class) (msg : string)
| SystemExit (code : Z).

Inductive outcome (A : Type) : Type :=
| Val (a : A)
| Raise (e : exn).
Arguments Val {A} a.
Arguments Raise {A} e.

(** Answer of a collaborator: a value, or an instance of [Exception]. *)
Inductive answer (A : Type) : Type :=
| Returns (a : A)
| Raises (c : exn_class) (msg : string).
Arguments Returns {A} a.
Arguments Raises {A} c msg.

Inductive LLM : Type :=
| ChatAzureOpenAI
    (model api_key azure_endpoint azure_deployment api_version : string)
    (temperature : PyFloat.float)
| ChatOpenAI (model api_key : string) (temperature : PyFloat.float)
| ChatGoogle (model api_key : string) (temperature : PyFloat.float).

Record BrowserSession : Type :=
  { cdp_url : string; is_local : bool }.

(** One entry of [token_cost_service.usage_history]
    ([entry.usage.prompt_tokens], [entry.usage.completion_tokens]). *)
Record UsageEntry : Type :=
  { entry_model : string; prompt_tokens : Z; completion_tokens : Z }.

Record TokenCost : Type :=
  { usage_history : list UsageEntry }.

(** The [Agent] object: what it was built from and the attributes the script
    reads ([token_cost_service] is [None] when absent or falsy, [browser]
    tells whether the attribute exists and is truthy).  The object is
    mutable: [agent.run()] extends the usage history of its cost service. *)
Record Agent : Type :=
  { agent_task : string;
    agent_llm : option LLM;
    agent_max_steps : Z;
    agent_browser_session : option BrowserSession;
    token_cost_service : option TokenCost;
    browser : bool }.

(** The value of [agent.run()]: [result.all_results] when the attribute
    exists, and [str(result)]. *)
Record AgentHistory : Type :=
  { all_results : option (list string); rendered : string }.

(** The endpoints under [http://localhost:3000/api]; the task id of the
    status URL is the interpolated value. *)
Inductive url : Type :=
| SessionsCreate
| BrowserUseExecute
| BrowserUseStatus (task_id : json).

Record HttpResponse : Type :=
  { status : Z; body_json : answer json; body_text : answer string }.

Inductive event : Type :=
| EvBrowserSession (endpoint : string)
| EvAgent (task : string) (l : option LLM) (max_steps : Z)
          (session : option BrowserSession)
| EvImportHighlights
| EvInitialize
| EvRun
| EvClose
| EvPost (u : url) (payload : json)
| EvGet (u : url)
| EvPrintJson (doc : json).

(** The environment of a run.  Every collaborator sees the events so far,
    the call being answered last. *)
Record Env : Type :=
  { getenv : string -> option string;
    on_BrowserSession : list event -> answer unit;
    on_Agent : list event -> answer (option TokenCost * bool);
    on_import_highlights : list event -> answer unit;
    on_initialize : list event -> answer unit;
    on_run : list event -> list UsageEntry * answer AgentHistory;
    on_close : list event -> answer unit;
    on_post : list event -> answer HttpResponse;
    on_get : list event -> answer HttpResponse }.

(** ** The process state *)

(** The attributes [load_environment] sets. *)
Record Settings : Type :=
  { azure_api_key : option string;
    azure_endpoint : option string;
    azure_deployment : string;
    api_version : string;
    openai_api_key : option string;
    google_api_key : option string;
    llm_provider : string;
    headless : bool;
    browser_port : Z }.

(** The [UnifiedBrowserUseAgent] instance.  [highlighting_patched] is kept
    with it: whether [inject_highlighting_script] of browser-use has been
    replaced by the function that does nothing. *)
Record Self : Type :=
  { settings : Settings;
    llm : option LLM;
    disable_highlighting : bool;
    browser_session : option BrowserSession;
    agent : option Agent;
    highlighting_patched : bool }.

Record World : Type :=
  { self : Self; events : list event }.

Definition blank_settings : Settings :=
  {| azure_api_key := None; azure_endpoint := None; azure_deployment := "";
     api_version := ""; openai_api_key := None; google_api_key := None;
     llm_provider := ""; headless := false; browser_port := 0%Z |}.

Definition blank_self : Self :=
  {| settings := blank_settings; llm := None; disable_highlighting := false;
     browser_session := None; agent := None; highlighting_patched := false |}.

(** The process before [main] runs. *)
Definition world0 : World := {| self := blank_self; events := [] |}.

Definition set_settings (c : Settings) (s : Self) : Self :=
  {| settings := c; llm := llm s;
     disable_highlighting := disable_highlighting s;
     browser_session := browser_session s; agent := agent s;
     highlighting_patched := highlighting_patched s |}.

Definition set_llm (l : option LLM) (s : Self) : Self :=
  {| settings := settings s; llm := l;
     disable_highlighting := disable_highlighting s;
     browser_session := browser_session s; agent := agent s;
     highlighting_patched := highlighting_patched s |}.

Definition set_disable_highlighting (b : bool) (s : Self) : Self :=
  {| settings := settings s; llm := llm s; disable_highlighting := b;
     browser_session := browser_session s; agent := agent s;
     highlighting_patched := highlighting_patched s |}.

Definition set_browser_session (b : option BrowserSession) (s : Self) : Self :=
  {| settings := settings s; llm := llm s;
     disable_highlighting := disable_highlighting s;
     browser_session := b; agent := agent s;
     highlighting_patched := highlighting_patched s |}.

Definition set_agent (a : option Agent) (s : Self) : Self :=
  {| settings := settings s; llm := llm s;
     disable_highlighting := disable_highlighting s;
     browser_session := browser_session s; agent := a;
     highlighting_patched := highlighting_patched s |}.

Definition set_highlighting_patched (b : bool) (s : Self) : Self :=
  {| settings := settings s; llm := llm s;
     disable_highlighting := disable_highlighting s;
     browser_session := browser_session s; agent := agent s;
     highlighting_patched := b |}.

(** ** The monad of the script: state and exceptions *)

Definition M (A : Type) : Type := World -> outcome A * World.

Definition ret {A} (a : A) : M A := fun w => (Val a, w).

Definition bind {A B} (m : M A) (k : A -> M B) : M B :=
  fun w =>
    match m w with
    | (Val a, w') => k a w'
    | (Raise e, w') => (Raise e, w')
    end.

Declare Scope py_scope.
Delimit Scope py_scope with py.
Notation "x <- m ;; k" := (bind m (fun x => k))
  (at level 61, m at next level, right associativity) : py_scope.
Notation "m ;; k" := (bind m (fun _ => k))
  (at level 61, right associativity) : py_scope.
Local Open Scope py_scope.

Definition raise {A} (c : exn_class) (msg : string) : M A :=
  fun w => (Raise (Exception c msg), w).

(** [sys.exit(code)] *)
Definition sys_exit {A} (code : Z) : M A :=
  fun w => (Raise (SystemExit code), w).

(** [try: body  except Exception as e: handler] *)
Definition try_except {A} (body : M A) (handler : exn_class -> string -> M A)
  : M A :=
  fun w =>
    match body w with
    | (Raise (Exception c msg), w') => handler c msg w'
    | r => r
    end.

(** [try: body  finally: final] *)
Definition try_finally {A} (body : M A) (final : M unit) : M A :=
  fun w =>
    match body w with
    | (o, w') =>
        match final w' with
        | (Val _, w'') => (o, w'')
        | (Raise e, w'') => (Raise e, w'')
        end
    end.

Definition get_self : M Self := fun w => (Val (self w), w).

Definition modify_self (f : Self -> Self) : M unit :=
  fun w => (Val tt, {| self := f (self w); events := events w |}).

Definition of_answer {A} (a : answer A) : outcome A :=
  match a with
  | Returns v => Val v
  | Raises c msg => Raise (Exception c msg)
  end.

(** A value already received that may still fail to decode. *)
Definition lift {A} (a : answer A) : M A := fun w => (of_answer a, w).

(** A call of a collaborator: the event is recorded, then answered. *)
Definition call {A} (ev : event) (oracle : list event -> answer A) : M A :=
  fun w =>
    let h := events w ++ [ev] in
    (of_answer (oracle h), {| self := self w; events := h |}).

(** [print(json.dumps(doc, indent=2))] *)
Definition print_json (doc : json) : M unit :=
  fun w => (Val tt, {| self := self w; events := events w ++ [EvPrintJson doc] |}).

(** [d.get(k)]: only a dict has the method. *)
Definition py_get (d : json) (k : string) : M json :=
  match d with
  | JDict items =>
      ret (match lookup k items with Some v => v | None => JNull end)
  | _ => raise AttributeError "object has no attribute 'get'"
  end.

(** Exit status of the interpreter after [asyncio.run(main())]. *)
Definition exit_status {A} (o : outcome A) : Z :=
  match o with
  | Val _ => 0%Z
  | Raise (SystemExit code) => code
  | Raise (Exception _ _) => 1%Z
  end.

(** ** Argument parsing in [main] *)

(** [_sanitize_token]: [token.replace('\xa0', ' ').strip()]. *)
Definition _sanitize_token (token : string) : string :=
  PyStr.strip
    (PyStr.replace (String PyStr.nbsp "") (String PyStr.space "") token).

(** State of the flag loop: [use_api], [disable_highlighting] and
    [cleaned_args]. *)
Record Flags : Type :=
  { use_api : bool; no_highlighting : bool; cleaned_args : list string }.

Definition set_use_api (st : Flags) : Flags :=
  {| use_api := true; no_highlighting := no_highlighting st;
     cleaned_args := cleaned_args st |}.

Definition set_no_highlighting (st : Flags) : Flags :=
  {| use_api := use_api st; no_highlighting := true;
     cleaned_args := cleaned_args st |}.

Definition append_arg (token : string) (st : Flags) : Flags :=
  {| use_api := use_api st; no_highlighting := no_highlighting st;
     cleaned_args := cleaned_args st ++ [token] |}.

(** The second test of the loop body and the [append]. *)
Definition highlighting_step (st : Flags) (token : string) : Flags :=
  if PyStr.contains "--disable-highlighting" token then
    let token' :=
      PyStr.strip (PyStr.replace "--disable-highlighting" "" token) in
    if negb (PyStr.truthy token') then set_no_highlighting st
    else append_arg token' (set_no_highlighting st)
  else append_arg token st.

(** One iteration of [for token in sanitized_args]; a [continue] leaves
    [cleaned_args] as it is. *)
Definition flag_step (st : Flags) (token : string) : Flags :=
  if PyStr.contains "--api" token then
    let token' := PyStr.strip (PyStr.replace "--api" "" token) in
    if negb (PyStr.truthy token') then set_use_api st
    else highlighting_step (set_use_api st) token'
  else highlighting_step st token.

Definition strip_flags (raw_args : list string) : Flags :=
  fold_left flag_step (map _sanitize_token raw_args)
    {| use_api := false; no_highlighting := false; cleaned_args := [] |}.

(** [[p for p in token.split(' ') if p]] *)
Definition words (token : string) : list string :=
  filter PyStr.truthy (PyStr.split PyStr.space token).

(** The fallback split of a command pasted as one token. *)
Definition resplit (args : list string) : list string :=
  match args with
  | [token] => if PyStr.contains "  " token then words token else args
  | _ => args
  end.

(** [task], [max_steps], [session_id] and [browser_context_id]. *)
Record TaskRequest : Type :=
  { task : string;
    max_steps : Z;
    session_id : option string;
    browser_context_id : option string }.

(** ** The script *)

Section Script.

Variable env : Env.

Definition getenv_or (k default : string) : string :=
  match getenv env k with Some v => v | None => default end.

(** [str(e)] for the [ValueError] of [int(s)]: the string is shown by
    [repr], cut after 200 characters; a literal with too many digits has a
    message of its own. *)
Definition int_error (s : string) : string :=
  match PyStr.int_parse s with
  | PyStr.TooManyDigits digits =>
      "Exceeds the limit (4300 digits) for integer string conversion: value has "
      ++ PyStr.decimal digits
      ++ " digits; use sys.set_int_max_str_digits() to increase the limit"
  | _ =>
      "invalid literal for int() with base 10: "
      ++ PyStr.str (firstn 200 (PyStr.repr_l (PyStr.chars s)))
  end.

(** [int(s)], raising [ValueError]. *)
Definition py_int (s : string) : M Z :=
  match PyStr.int s with
  | Some n => ret n
  | None => raise ValueError (int_error s)
  end.

(** *** class UnifiedBrowserUseAgent *)

Definition load_environment : M unit :=
  let azure_api_key := getenv env "AZURE_OPENAI_API_KEY" in
  let azure_endpoint := getenv env "AZURE_OPENAI_ENDPOINT" in
  let azure_deployment := getenv_or "AZURE_OPENAI_DEPLOYMENT_NAME" "gpt-4.1" in
  let api_version := getenv_or "AZURE_OPENAI_API_VERSION" "2024-08-01-preview" in
  let openai_api_key := getenv env "OPENAI_API_KEY" in
  let google_api_key := getenv env "GOOGLE_API_KEY" in
  let llm_provider := PyStr.lower (getenv_or "LLM_PROVIDER" "azure") in
  let headless :=
    String.eqb (PyStr.lower (getenv_or "BROWSER_HEADLESS" "true")) "true" in
  browser_port <- py_int (getenv_or "BROWSER_PORT" "9222") ;;
  modify_self (set_settings
    {| azure_api_key := azure_api_key; azure_endpoint := azure_endpoint;
       azure_deployment := azure_deployment; api_version := api_version;
       openai_api_key := openai_api_key; google_api_key := google_api_key;
       llm_provider := llm_provider; headless := headless;
       browser_port := browser_port |}).

(** [all([self.azure_api_key, self.azure_endpoint, self.azure_deployment])] *)
Definition azure_configured (c : Settings) : bool :=
  opt_truthy (azure_api_key c) && opt_truthy (azure_endpoint c)
  && PyStr.truthy (azure_deployment c).

(** [temperature=0.7] *)
Definition temperature_07 : PyFloat.float := PyFloat.literal 7 10.

Definition azure_llm (c : Settings) : LLM :=
  ChatAzureOpenAI (azure_deployment c)
    (match azure_api_key c with Some k => k | None => "" end)
    (match azure_endpoint c with Some e => e | None => "" end)
    (azure_deployment c) (api_version c) temperature_07.

Definition no_llm_message : string :=
  "No valid LLM configuration found. Please set up Azure OpenAI, OpenAI, or Google AI credentials.".

Definition setup_llm : M unit :=
  s <- get_self ;;
  match llm s with
  | Some _ => ret tt
  | None =>
      let c := settings s in
      if String.eqb (llm_provider c) "azure" && azure_configured c then
        modify_self (set_llm (Some (azure_llm c)))
      else if String.eqb (llm_provider c) "openai"
              && opt_truthy (openai_api_key c) then
        modify_self (set_llm (Some
          (ChatOpenAI "gpt-4o"
             (match openai_api_key c with Some k => k | None => "" end)
             temperature_07)))
      else if String.eqb (llm_provider c) "google"
              && opt_truthy (google_api_key c) then
        modify_self (set_llm (Some
          (ChatGoogle "gemini-2.0-flash"
             (match google_api_key c with Some k => k | None => "" end)
             temperature_07)))
      else if azure_configured c then
        modify_self (set_llm (Some (azure_llm c)))
      else raise ValueError no_llm_message
  end.

(** [UnifiedBrowserUseAgent(defer_llm, disable_highlighting)] *)
Definition init (defer_llm disable_highlighting : bool) : M unit :=
  load_environment ;;
  modify_self (set_llm None) ;;
  modify_self (set_disable_highlighting disable_highlighting) ;;
  (if negb defer_llm then setup_llm else ret tt) ;;
  modify_self (set_browser_session None) ;;
  modify_self (set_agent None).

(** The highlighting patch: [except ImportError] around the import. *)
Definition patch_highlighting : M unit :=
  fun w =>
    match (call EvImportHighlights (on_import_highlights env) ;;
           modify_self (set_highlighting_patched true)) w with
    | (Raise (Exception ImportError _), w') => (Val tt, w')
    | r => r
    end.

(** The [try] block of [create_agent]; the agent is stored in [self.agent]
    and returned.  After [initialize()] the source configures loggers and
    wraps [_log_usage] in a function that prints one more line per record. *)
Definition create_agent_try
  (task : string) (browser_context_id : option string) (max_steps : Z)
  : M Agent :=
  session <-
    (match browser_context_id with
     | Some endpoint =>
         if PyStr.truthy endpoint && PyStr.startswith "ws://" endpoint then
           call (EvBrowserSession endpoint) (on_BrowserSession env) ;;
           ret (Some {| cdp_url := endpoint; is_local := false |})
         else ret None
     | None => ret None
     end) ;;
  s <- get_self ;;
  built <- call (EvAgent task (llm s) max_steps session) (on_Agent env) ;;
  let a := {| agent_task := task; agent_llm := llm s;
              agent_max_steps := max_steps; agent_browser_session := session;
              token_cost_service := fst built; browser := snd built |} in
  modify_self (set_agent (Some a)) ;;
  (if disable_highlighting s then patch_highlighting else ret tt) ;;
  (match token_cost_service a with
   | Some _ => call EvInitialize (on_initialize env)
   | None => ret tt
   end) ;;
  ret a.

(** The retry of [create_agent] clears the hint, so it happens at most
    once: a cleared hint is falsy. *)
Definition hint_rank (browser_context_id : option string) : nat :=
  if opt_truthy browser_context_id then 1 else 0.

Equations create_agent
  (task : string) (browser_context_id : option string) (max_steps : Z)
  (w : World) : outcome Agent * World
  by wf (hint_rank browser_context_id) lt :=
create_agent task browser_context_id max_steps w
  with create_agent_try task browser_context_id max_steps w := {
  | (Val a, w') => (Val a, w')
  | (Raise (SystemExit code), w') => (Raise (SystemExit code), w')
  | (Raise (Exception c msg), w')
      with inspect (opt_truthy browser_context_id) := {
      | exist _ true Htruthy => create_agent task (Some "") max_steps w'
      | exist _ false _ => (Raise (Exception c msg), w') } }.
Next Obligation.
  unfold hint_rank. rewrite Htruthy. simpl. lia.
Qed.

(** [await agent.run()]: the records of the run are appended to the usage
    history of the agent's cost service, and [agent], which is [self.agent],
    is returned in its new state next to the value of the call. *)
Definition record_usage (new : list UsageEntry) (a : Agent) : Agent :=
  {| agent_task := agent_task a; agent_llm := agent_llm a;
     agent_max_steps := agent_max_steps a;
     agent_browser_session := agent_browser_session a;
     token_cost_service :=
       match token_cost_service a with
       | Some tc => Some {| usage_history := usage_history tc ++ new |}
       | None => None
       end;
     browser := browser a |}.

Definition run (a : Agent) : M (Agent * AgentHistory) :=
  fun w =>
    let h := events w ++ [EvRun] in
    let a' := record_usage (fst (on_run env h)) a in
    let w' := {| self := set_agent (Some a') (self w); events := h |} in
    match snd (on_run env h) with
    | Returns r => (Val (a', r), w')
    | Raises c msg => (Raise (Exception c msg), w')
    end.

(** [initial_usage]: the length of the history, or [None] when the service
    is missing or the history is empty. *)
Definition initial_usage (a : Agent) : option nat :=
  match token_cost_service a with
  | Some tc =>
      match usage_history tc with
      | [] => None
      | _ :: _ => Some (List.length (usage_history tc))
      end
  | None => None
  end.

(** The script's rates: the float literals [0.0001] and [0.0003]. *)
Definition prompt_rate : PyFloat.float := PyFloat.literal 1 10000.
Definition completion_rate : PyFloat.float := PyFloat.literal 3 10000.

(** Cost of one record,
    [prompt_tokens * 0.0001 + completion_tokens * 0.0003]: each count is
    converted to a float, which raises [OverflowError] for a count out of
    the range of floats ([None]). *)
Definition entry_cost (e : UsageEntry) : option PyFloat.float :=
  match PyFloat.of_int (prompt_tokens e) with
  | Some p =>
      match PyFloat.of_int (completion_tokens e) with
      | Some c => Some (p * prompt_rate + c * completion_rate)%float
      | None => None
      end
  | None => None
  end.

Definition entry_tokens (e : UsageEntry) : Z :=
  (prompt_tokens e + completion_tokens e)%Z.

(** The body of the loop: [total_tokens += ...] and [total_cost += ...]. *)
Definition add_entry (acc : Z * PyFloat.float) (e : UsageEntry)
  : option (Z * PyFloat.float) :=
  match entry_cost e with
  | Some cost => Some ((fst acc + entry_tokens e)%Z, (snd acc + cost)%float)
  | None => None
  end.

(** The loop [for entry in new_entries], left at the first record whose
    cost raises. *)
Fixpoint usage_loop (new_entries : list UsageEntry) (acc : Z * PyFloat.float)
  : option (Z * PyFloat.float) :=
  match new_entries with
  | [] => Some acc
  | e :: rest =>
      match add_entry acc e with
      | Some acc' => usage_loop rest acc'
      | None => None
      end
  end.

(** [total_tokens] and [total_cost] after the run; [None] when the loop
    raises [OverflowError]. *)
Definition final_usage (initial : option nat) (a : Agent)
  : option (Z * PyFloat.float) :=
  match token_cost_service a with
  | Some tc =>
      match usage_history tc with
      | [] => Some (0%Z, 0%float)
      | _ :: _ =>
          let final := List.length (usage_history tc) in
          match initial with
          | Some i =>
              if i <? final
              then usage_loop (skipn i (usage_history tc)) (0%Z, 0%float)
              else Some (0%Z, 0%float)
          | None => Some (0%Z, 0%float)
          end
      end
  | None => Some (0%Z, 0%float)
  end.

Definition overflow_message : string := "int too large to convert to float".

(** The result of a float computation, its [OverflowError] raised. *)
Definition or_overflow {A} (o : option A) : M A :=
  match o with
  | Some v => ret v
  | None => raise (OtherException "OverflowError") overflow_message
  end.

Definition execution_data
  (s : Self) (task : string) (browser_context_id : option string)
  (result : AgentHistory) (usage : Z * PyFloat.float) : json :=
  let provider := llm_provider (settings s) in
  JDict
    [ ("success", JBool true);
      ("task", JStr task);
      ("llm_provider", JStr provider);
      ("deployment",
        JStr (if String.eqb provider "azure"
              then azure_deployment (settings s) else "N/A"));
      ("steps_executed",
        JInt (match all_results result with
              | Some l => Z.of_nat (List.length l)
              | None => 0%Z
              end));
      ("final_result", JStr (rendered result));
      ("browser_context_id", json_of_opt browser_context_id);
      ("token_usage",
        JDict [ ("total_tokens", JInt (fst usage));
                ("total_cost", JFloat (snd usage));
                ("model", JStr provider) ]) ].

Definition error_data
  (s : Self) (task : string) (browser_context_id : option string)
  (msg : string) : json :=
  JDict
    [ ("success", JBool false);
      ("task", JStr task);
      ("error", JStr msg);
      ("llm_provider", JStr (llm_provider (settings s)));
      ("browser_context_id", json_of_opt browser_context_id) ].

(** The [try] block of [execute_task]. *)
Definition execute_task_try
  (task : string) (browser_context_id : option string) (max_steps : Z)
  : M json :=
  a <- create_agent task browser_context_id max_steps ;;
  let initial := initial_usage a in
  ran <- run a ;;
  usage <- or_overflow (final_usage initial (fst ran)) ;;
  s <- get_self ;;
  ret (execution_data s task browser_context_id (snd ran) usage).

Definition execute_task
  (task : string) (browser_context_id : option string) (max_steps : Z)
  : M json :=
  try_except (execute_task_try task browser_context_id max_steps)
    (fun _ msg =>
       s <- get_self ;;
       ret (error_data s task browser_context_id msg)).

Definition cleanup : M unit :=
  try_except
    (s <- get_self ;;
     match agent s with
     | Some a => if browser a then call EvClose (on_close env) else ret tt
     | None => ret tt
     end)
    (fun _ _ => ret tt).

(** *** The remote path *)

Definition create_session_via_api : M json :=
  try_except
    (response <- call (EvPost SessionsCreate (JDict [])) (on_post env) ;;
     if (status response =? 200)%Z then
       result <- lift (body_json response) ;;
       session_id <- py_get result "sessionId" ;;
       ret session_id
     else
       lift (body_text response) ;;
       ret JNull)
    (fun _ _ => ret JNull).

Definition execute_payload (session_id : json) (task : string) (max_steps : Z)
  : json :=
  JDict [ ("sessionId", session_id);
          ("task", JStr task);
          ("options", JDict [ ("llmModel", JStr "gpt-4.1");
                              ("maxSteps", JInt max_steps) ]) ].

Definition execute_task_via_api
  (session_id : json) (task : string) (max_steps : Z) : M json :=
  try_except
    (response <- call (EvPost BrowserUseExecute
                         (execute_payload session_id task max_steps))
                      (on_post env) ;;
     if (status response =? 200)%Z then
       result <- lift (body_json response) ;;
       py_get result "taskId" ;;
       py_get result "liveUrl" ;;
       ret result
     else
       lift (body_text response) ;;
       ret JNull)
    (fun _ _ => ret JNull).

Definition monitor_task_progress (session_id task_id : json) : M json :=
  try_except
    (response <- call (EvGet (BrowserUseStatus task_id)) (on_get env) ;;
     if (status response =? 200)%Z then
       result <- lift (body_json response) ;;
       ret result
     else
       lift (body_text response) ;;
       ret JNull)
    (fun _ _ => ret JNull).

(** *** [main] *)

(** The positional arguments: [args[0]], [int(args[1])], [args[2]],
    [args[3]]. *)
Definition positional (args : list string) : M TaskRequest :=
  match args with
  | [] => raise IndexError "list index out of range"
  | t :: rest =>
      n <- (match rest with
            | m :: _ => py_int m
            | [] => ret 10%Z
            end) ;;
      ret {| task := t; max_steps := n;
             session_id := nth_error args 2;
             browser_context_id := nth_error args 3 |}
  end.

(** The [try] block of the branch [if use_api:]; the block that polls the
    status of the task stands twice in the source. *)
Definition main_api_try (r : TaskRequest) : M unit :=
  session_id <- create_session_via_api ;;
  if negb (json_truthy session_id) then ret tt
  else
    result <- execute_task_via_api session_id (task r) (max_steps r) ;;
    if negb (json_truthy result) then ret tt
    else
      task_id <- py_get result "taskId" ;;
      (if json_truthy task_id
       then monitor_task_progress session_id task_id ;; ret tt
       else ret tt) ;;
      task_id <- py_get result "taskId" ;;
      (if json_truthy task_id
       then monitor_task_progress session_id task_id ;; ret tt
       else ret tt) ;;
      print_json result.

(** The branch [if use_api:]: the agent with its LLM deferred, then
    [try / except Exception], every exit a plain [return]. *)
Definition main_api (r : TaskRequest) (no_hl : bool) : M unit :=
  init true no_hl ;;
  try_except (main_api_try r) (fun _ _ => ret tt).

Definition error_result (msg t : string) : json :=
  JDict [ ("success", JBool false); ("error", JStr msg); ("task", JStr t) ].

(** The [try] block of the local branch. *)
Definition main_local_try (r : TaskRequest) : M unit :=
  result <- execute_task (task r) (browser_context_id r) (max_steps r) ;;
  print_json result.

(** The local branch: the agent, then [try / except Exception / finally]. *)
Definition main_local (r : TaskRequest) (no_hl : bool) : M unit :=
  init false no_hl ;;
  try_finally
    (try_except (main_local_try r)
       (fun _ msg =>
          print_json (error_result msg (task r)) ;;
          sys_exit 1%Z))
    cleanup.

Definition main (argv : list string) : M unit :=
  if List.length argv <? 2 then ret tt
  else
    let flags := strip_flags (tl argv) in
    if List.length (cleaned_args flags) <? 1 then ret tt
    else
      r <- positional (resplit (cleaned_args flags)) ;;
      if use_api flags then main_api r (no_highlighting flags)
      else main_local r (no_highlighting flags).

End Script.

(** ** The usage delta as the specification words it *)

(** Total tokens of a sequence of records: the sum of prompt and completion
    counts. *)
Definition sum_tokens (l : list UsageEntry) : Z :=
  fold_right (fun e z => (entry_tokens e + z)%Z) 0%Z l.

(** Total cost of a sequence of records at the fixed rates: the costs of
    the records are added one after the other to [0.0], each sum rounded;
    there is no total when the cost of a record has none. *)
Definition sum_cost (l : list UsageEntry) : option PyFloat.float :=
  fold_left
    (fun total e =>
       match total, entry_cost e with
       | Some t, Some cost => Some (t + cost)%float
       | _, _ => None
       end)
    l (Some 0%float).

(** The cost of the record can be computed: both counts are in the range of
    floats. *)
Definition priced (e : UsageEntry) : bool :=
  match entry_cost e with Some _ => true | None => false end.

(** ** Observations on a run *)

Definition count (p : event -> bool) (l : list event) : nat :=
  List.length (filter p l).

Definition is_attach (e : event) : bool :=
  match e with EvBrowserSession _ => true | _ => false end.

(** Number of attempts to attach to a remote browser. *)
Definition attaches (l : list event) : nat := count is_attach l.

Definition is_session_post (e : event) : bool :=
  match e with EvPost SessionsCreate _ => true | _ => false end.

Definition is_status_get (e : event) : bool :=
  match e with EvGet (BrowserUseStatus _) => true | _ => false end.

(** The documents printed so far. *)
Definition printed (l : list event) : list json :=
  flat_map (fun e => match e with EvPrintJson d => [d] | _ => [] end) l.

Definition field (k : string) (doc : json) : option json :=
  match doc with JDict items => lookup k items | _ => None end.

(** A document that reports a failed task. *)
Definition reports_failure (doc : json) : bool :=
  match field "success" doc with Some (JBool false) => true | _ => false end.

(** The session-creation call did not succeed: a network error, or a status
    other than 200. *)
Definition creation_failed (a : answer HttpResponse) : Prop :=
  match a with
  | Raises _ _ => True
  | Returns r => status r <> 200%Z
  end.

(** ** Properties of computations *)

(** [sys.exit] is called in [main] only: the code below it never raises
    [SystemExit], so [except Exception] sees every exception. *)
Definition no_exit {A} (m : M A) : Prop :=
  forall w code w', m w <> (Raise (SystemExit code), w').

(** The computation always returns a value. *)
Definition total {A} (m : M A) : Prop :=
  forall w, exists a w', m w = (Val a, w').

(** [m] does not change the observation [f] of the process. *)
Definition preserves {A X} (f : World -> X) (m : M A) : Prop :=
  forall w, f (snd (m w)) = f w.

(** [m] adds no event that satisfies [p]. *)
Definition keeps {A} (p : event -> bool) (m : M A) : Prop :=
  preserves (fun w => count p (events w)) m.

(** Credential sets of section 4.1 of the specification. *)
Inductive provider : Type := Azure | OpenAI | Google.

Definition complete (p : provider) (c : Settings) : bool :=
  match p with
  | Azure => azure_configured c
  | OpenAI => opt_truthy (openai_api_key c)
  | Google => opt_truthy (google_api_key c)
  end.

Definition preference (c : Settings) : option provider :=
  if String.eqb (llm_provider c) "azure" then Some Azure
  else if String.eqb (llm_provider c) "openai" then Some OpenAI
  else if String.eqb (llm_provider c) "google" then Some Google
  else None.

Definition llm_of (p : provider) (c : Settings) : LLM :=
  match p with
  | Azure => azure_llm c
  | OpenAI =>
      ChatOpenAI "gpt-4o"
        (match openai_api_key c with Some k => k | None => "" end)
        temperature_07
  | Google =>
      ChatGoogle "gemini-2.0-flash"
        (match google_api_key c with Some k => k | None => "" end)
        temperature_07
  end.

(** Provider resolution as the specification words it: the preferred
    provider when its credential set is complete, otherwise Azure when
    Azure's is, otherwise nothing. *)
Definition resolve_spec (c : Settings) : option provider :=
  match preference c with
  | Some p =>
      if complete p c then Some p
      else if complete Azure c then Some Azure else None
  | None => if complete Azure c then Some Azure else None
  end.

(** [main] got as far as a task request. *)
Definition parsed (argv : list string) (r : TaskRequest) : Prop :=
  2 <= List.length argv /\
  1 <= List.length (cleaned_args (strip_flags (tl argv))) /\
  forall w,
    positional (resplit (cleaned_args (strip_flags (tl argv)))) w
    = (Val r, w).

(** ** Sample environments *)

Fixpoint assoc (k : string) (l : list (string * string)) : option string :=
  match l with
  | [] => None
  | (k', v) :: l' => if String.eqb k k' then Some v else assoc k l'
  end.

Definition azure_vars : list (string * string) :=
  [ ("AZURE_OPENAI_API_KEY", "secret");
    ("AZURE_OPENAI_ENDPOINT", "https://example.openai.azure.com") ].

Definition sample_entry : UsageEntry :=
  {| entry_model := "gpt-4.1"; prompt_tokens := 10; completion_tokens := 5 |}.

Definition sample_post (session_status : Z) (h : list event)
  : answer HttpResponse :=
  match last h EvRun with
  | EvPost SessionsCreate _ =>
      Returns {| status := session_status;
                 body_json := Returns (JDict [("sessionId", JStr "s1")]);
                 body_text := Returns "Internal Server Error" |}
  | _ =>
      Returns {| status := 200;
                 body_json := Returns (JDict [("taskId", JStr "t1");
                                              ("liveUrl", JStr "/live/s1")]);
                 body_text := Returns "" |}
  end.

(** An environment with the given variables; [attach_ok] and [run_ok] tell
    whether attaching to a remote browser and running the agent succeed,
    [session_status] is the status of the session-creation call and
    [baseline] the usage history a new agent starts with.  A run records
    [sample_entry]. *)
Definition sample_env
  (vars : list (string * string)) (attach_ok run_ok : bool)
  (session_status : Z) (baseline : list UsageEntry) : Env :=
  {| getenv := fun k => assoc k vars;
     on_BrowserSession := fun _ =>
       if attach_ok then Returns tt
       else Raises (OtherException "ConnectionError") "cannot reach browser";
     on_Agent := fun _ => Returns (Some {| usage_history := baseline |}, true);
     on_import_highlights := fun _ => Returns tt;
     on_initialize := fun _ => Returns tt;
     on_run := fun _ =>
       ([sample_entry],
        if run_ok
        then Returns {| all_results := Some ["a"; "b"]; rendered := "done" |}
        else Raises (OtherException "RuntimeError") "browser crashed");
     on_close := fun _ => Returns tt;
     on_post := sample_post session_status;
     on_get := fun _ =>
       Returns {| status := 200;
                  body_json := Returns (JDict [("status", JStr "running")]);
                  body_text := Returns "" |} |}.

Definition openai_settings : Settings :=
  {| azure_api_key := None; azure_endpoint := None;
     azure_deployment := "gpt-4.1"; api_version := "2024-08-01-preview";
     openai_api_key := Some "sk-test"; google_api_key := None;
     llm_provider := "openai"; headless := true; browser_port := 9222%Z |}.

(** OpenAI preferred without its key, Azure complete. *)
Definition fallback_settings : Settings :=
  {| azure_api_key := Some "secret";
     azure_endpoint := Some "https://example.openai.azure.com";
     azure_deployment := "gpt-4.1"; api_version := "2024-08-01-preview";
     openai_api_key := Some ""; google_api_key := None;
     llm_provider := "openai"; headless := true; browser_port := 9222%Z |}.

Definition world_with (c : Settings) : World :=
  {| self := set_settings c blank_self; events := [] |}.

Definition script : string := "browser_use_agent.py".

(** ** Further observations *)

(** The events of session acquisition: sessions and agents are built, the
    highlighting module is imported, the cost service is initialised. *)
Definition acquisition_event (e : event) : bool :=
  match e with
  | EvBrowserSession _ | EvAgent _ _ _ _ | EvImportHighlights
  | EvInitialize => true
  | _ => false
  end.

Definition is_agent (e : event) : bool :=
  match e with EvAgent _ _ _ _ => true | _ => false end.

Definition is_run (e : event) : bool :=
  match e with EvRun => true | _ => false end.

(** The events of the local path: acquisition and the run of the agent. *)
Definition local_event (e : event) : bool := acquisition_event e || is_run e.

(** The events of the remote path: HTTP calls and the printed document. *)
Definition remote_event (e : event) : bool :=
  match e with
  | EvPost _ _ | EvGet _ | EvPrintJson _ => true
  | _ => false
  end.

(** [m] adds at most [n] events that satisfy [p]. *)
Definition at_most {A} (p : event -> bool) (n : nat) (m : M A) : Prop :=
  forall w, count p (events (snd (m w))) <= count p (events w) + n.

(** The flags and arguments of two runs of the flag loop, one after the
    other. *)
Definition merge_flags (st st' : Flags) : Flags :=
  {| use_api := use_api st || use_api st';
     no_highlighting := no_highlighting st || no_highlighting st';
     cleaned_args := cleaned_args st ++ cleaned_args st' |}.

Definition no_flags : Flags :=
  {| use_api := false; no_highlighting := false; cleaned_args := [] |}.

(** A sanitized token that is a flag and nothing else. *)
Definition bare_flag (token : string) : Prop :=
  _sanitize_token token = "--api" \/
  _sanitize_token token = "--disable-highlighting".

(** The start-up listing of [main] shows the Azure key as
    [value[:10] + "..." + value[-4:]] when it has more than 14 characters,
    as three stars otherwise. *)
Definition mask_key (value : string) : string :=
  let l := PyStr.chars value in
  if 14 <? List.length l
  then PyStr.str (firstn 10 l ++ PyStr.chars "..."
                  ++ skipn (List.length l - 4) l)
  else "***".

(** What the listing prints for [AZURE_OPENAI_API_KEY]. *)
Definition shown_api_key (env : Env) : string :=
  match getenv env "AZURE_OPENAI_API_KEY" with
  | None => "NOT_SET"
  | Some value => if String.eqb value "NOT_SET" then value else mask_key value
  end.

(** ** Further sample environments *)

(** The remote platform with the given status and body for the task
    submission; session creation answers 200 with the session [s1]. *)
Definition staged_post (submit_status : Z) (submit_body : json)
    (h : list event) : answer HttpResponse :=
  match last h EvRun with
  | EvPost SessionsCreate _ =>
      Returns {| status := 200;
                 body_json := Returns (JDict [("sessionId", JStr "s1")]);
                 body_text := Returns "" |}
  | _ =>
      Returns {| status := submit_status;
                 body_json := Returns submit_body;
                 body_text := Returns "Bad Gateway" |}
  end.

Definition with_post (post : list event -> answer HttpResponse) (e : Env)
  : Env :=
  {| getenv := getenv e;
     on_BrowserSession := on_BrowserSession e;
     on_Agent := on_Agent e;
     on_import_highlights := on_import_highlights e;
     on_initialize := on_initialize e;
     on_run := on_run e;
     on_close := on_close e;
     on_post := post;
     on_get := on_get e |}.

(** The environment [e] with a run that appends the records [new]. *)
Definition with_records (new : list UsageEntry) (e : Env) : Env :=
  {| getenv := getenv e;
     on_BrowserSession := on_BrowserSession e;
     on_Agent := on_Agent e;
     on_import_highlights := on_import_highlights e;
     on_initialize := on_initialize e;
     on_run := fun h => (new, snd (on_run e h));
     on_close := on_close e;
     on_post := on_post e;
     on_get := on_get e |}.

(** A string of [n] digits [c]. *)
Definition digits (c : ascii) (n : nat) : string := PyStr.str (repeat c n).

(** The separator FS (0x1c) in front of a string. *)
Definition fs (s : string) : string := String (ascii_of_nat 28) s.

Definition youtube_request : TaskRequest :=
  {| task := "go to youtube"; max_steps := 10;
     session_id := None; browser_context_id := None |}.

(** A record of an earlier run. *)
Definition other_entry : UsageEntry :=
  {| entry_model := "gpt-4.1"; prompt_tokens := 7; completion_tokens := 2 |}.

Definition record (prompt completion : Z) : UsageEntry :=
  {| entry_model := "gpt-4.1"; prompt_tokens := prompt;
     completion_tokens := completion |}.

(** * Properties *)

(** ** Strings *)

Example strip_ex : PyStr.strip "  go to  youtube  " = "go to  youtube".
Proof. reflexivity. Qed.

Example replace_ex :
  PyStr.replace "--api" "" "search --api google--api" = "search  google".
Proof. reflexivity. Qed.

Example split_ex : PyStr.split " " "a  b c" = ["a"; ""; "b"; "c"].
Proof. reflexivity. Qed.

Example int_ex :
  PyStr.int " 15 " = Some 15%Z /\ PyStr.int "-1_0" = Some (-10)%Z /\
  PyStr.int "007" = Some 7%Z /\ PyStr.int "the" = None /\
  PyStr.int "1__0" = None /\ PyStr.int "" = None /\ PyStr.int "+ 1" = None.
Proof. repeat split; reflexivity. Qed.

(** [int()] does not skip FS..US, which [strip()] removes; NEL and
    NO-BREAK SPACE it skips. *)
Example int_space_ex :
  PyStr.int (fs "5") = None /\ PyStr.strip (fs "5") = "5" /\
  PyStr.int (String "5" (String (ascii_of_nat 31) "")) = None /\
  PyStr.int (String (ascii_of_nat 133) (String "5" (String PyStr.nbsp "")))
  = Some 5%Z /\
  PyStr.int "_1" = None /\ PyStr.int "1_" = None /\ PyStr.int "-" = None /\
  PyStr.int "1 2" = None /\ PyStr.int "+7" = Some 7%Z.
Proof. repeat split; reflexivity. Qed.

(** The limit on the digits: 4300 digits are read, one more is refused,
    before what follows the digits is looked at; underscores do not
    count. *)
Example int_digit_limit_ex :
  PyStr.int (digits "0" 4299 ++ "7")%string = Some 7%Z /\
  PyStr.int_parse (digits "1" 4301) = PyStr.TooManyDigits 4301 /\
  PyStr.int_parse (digits "1" 4301 ++ "x")%string
  = PyStr.TooManyDigits 4301 /\
  PyStr.int_parse (digits "1" 4301 ++ "_")%string = PyStr.InvalidLiteral /\
  int_error (digits "1" 4301)
  = "Exceeds the limit (4300 digits) for integer string conversion: value has 4301 digits; use sys.set_int_max_str_digits() to increase the limit".
Proof. repeat split; vm_compute; reflexivity. Qed.

(** The message of [int()] shows the string as [repr] does. *)
Example int_error_ex :
  int_error "the" = "invalid literal for int() with base 10: 'the'" /\
  int_error "it's"
  = ("invalid literal for int() with base 10: "
     ++ String PyStr.double_quote "it's"
     ++ String PyStr.double_quote "")%string /\
  int_error (fs "5") = "invalid literal for int() with base 10: '\x1c5'" /\
  int_error (String PyStr.nbsp (String "a" (String (ascii_of_nat 9) "")))
  = "invalid literal for int() with base 10: '\xa0a\t'" /\
  int_error (String "a" (String PyStr.backslash "b"))
  = "invalid literal for int() with base 10: 'a\\b'" /\
  String.length (int_error (digits "a" 300)) = 240.
Proof. repeat split; vm_compute; reflexivity. Qed.

(** The rates are the floats 0x1.a36e2eb1c432dp-14 and
    0x1.3a92a30553261p-12, and 0.7 is 0x1.6666666666666p-1. *)
Example rates_ex :
  prompt_rate = S754_finite false 0x1a36e2eb1c432d (-66) /\
  completion_rate = S754_finite false 0x13a92a30553261 (-64) /\
  temperature_07 = S754_finite false 0x16666666666666 (-53).
Proof. repeat split; vm_compute; reflexivity. Qed.

(** [10 * 0.0001 + 5 * 0.0003] is 0.0024999999999999996
    (0x1.47ae147ae147ap-9), not the float nearest to 0.0025; a count of
    [2 ** 1024] has no float. *)
Example entry_cost_ex :
  entry_cost sample_entry = Some (S754_finite false 0x147ae147ae147a (-61)) /\
  PyFloat.literal 25 10000 = S754_finite false 0x147ae147ae147b (-61) /\
  entry_cost (record 0 0) = Some PyFloat.zero /\
  entry_cost (record (2 ^ 1024) 0) = None /\
  entry_cost (record 0 (- 2 ^ 1024)) = None /\
  priced (record (2 ^ 1024 - 2 ^ 970 - 1) 0) = true /\
  priced (record (2 ^ 1024 - 2 ^ 970) 0) = false.
Proof. repeat split; vm_compute; reflexivity. Qed.

Example sanitize_ex :
  _sanitize_token (String PyStr.nbsp "go" ++ String PyStr.nbsp "") = "go".
Proof. reflexivity. Qed.

Example strip_flags_ex :
  strip_flags ["find shoes --api now"; "--disable-highlighting"; "12"]
  = {| use_api := true; no_highlighting := true;
       cleaned_args := ["find shoes  now"; "12"] |}.
Proof. reflexivity. Qed.

Module PyStrFacts.
Import PyStr.

Lemma chars_str l : chars (str l) = l.
Proof. apply list_ascii_of_string_of_list_ascii. Qed.

Lemma str_chars s : str (chars s) = s.
Proof. apply string_of_list_ascii_of_string. Qed.

Lemma str_app l1 l2 : str (l1 ++ l2) = (str l1 ++ str l2)%string.
Proof. induction l1 as [|c l1 IH]; simpl; [reflexivity | now rewrite IH]. Qed.

Lemma truthy_str l : truthy (str l) = nonempty_l l.
Proof. destruct l; reflexivity. Qed.

Lemma isspace_space : isspace space = true.
Proof. reflexivity. Qed.

Lemma lstrip_head l c t : lstrip_l l = c :: t -> isspace c = false.
Proof.
  induction l as [|a l IH]; simpl; [discriminate|].
  destruct (isspace a) eqn:Ha; [exact IH|].
  intros H; injection H as <- _; exact Ha.
Qed.

(** [lstrip] drops a prefix. *)
Lemma lstrip_suffix l : exists p, l = p ++ lstrip_l l.
Proof.
  induction l as [|a l [p IH]]; simpl; [now exists []|].
  destruct (isspace a).
  - exists (a :: p). simpl. now rewrite <- IH.
  - now exists [].
Qed.

Lemma rstrip_prefix l : exists q, l = rstrip_l l ++ q.
Proof.
  unfold rstrip_l. destruct (lstrip_suffix (rev l)) as [p Hp].
  exists (rev p). rewrite <- rev_app_distr, <- Hp. now rewrite rev_involutive.
Qed.

Lemma rstrip_last l c t : rstrip_l l = t ++ [c] -> isspace c = false.
Proof.
  unfold rstrip_l. intros H.
  apply (f_equal (@rev ascii)) in H.
  rewrite rev_involutive, rev_app_distr in H. simpl in H.
  eapply lstrip_head; eauto.
Qed.

Lemma strip_l_trimmed l : trimmed_l (strip_l l).
Proof.
  unfold strip_l. split.
  - intros c t H. destruct (rstrip_prefix (lstrip_l l)) as [q Hq].
    rewrite H in Hq. simpl in Hq. eapply lstrip_head; eauto.
  - intros c t H. eapply rstrip_last; eauto.
Qed.

Lemma strip_trimmed s : trimmed (strip s).
Proof. unfold trimmed, strip. rewrite chars_str. apply strip_l_trimmed. Qed.

Lemma prefix_l_app p l : prefix_l p l = true -> exists r, l = p ++ r.
Proof.
  revert l. induction p as [|a p IH]; intros l; simpl.
  - now exists l.
  - destruct l as [|b l]; [discriminate|].
    intros H. apply andb_true_iff in H as [Hab Hp].
    apply Ascii.eqb_eq in Hab as ->.
    destruct (IH _ Hp) as [r ->]. now exists r.
Qed.

Lemma contains_l_app sub l :
  contains_l sub l = true -> exists a b, l = a ++ sub ++ b.
Proof.
  induction l as [|c l IH]; simpl; intros H.
  - rewrite orb_false_r in H. destruct (prefix_l_app _ _ H) as [r ->].
    now exists [], r.
  - apply orb_true_iff in H as [H|H].
    + destruct (prefix_l_app _ _ H) as [r ->]. now exists [], r.
    + destruct (IH H) as (a & b & ->). now exists (c :: a), b.
Qed.

(** *** Fields and words *)

Lemma split_l_nonnil sep l : split_l sep l <> [].
Proof.
  destruct l as [|c l]; simpl; [discriminate|].
  destruct (Ascii.eqb c sep); [discriminate|].
  destruct (split_l sep l); discriminate.
Qed.

Lemma split_l_app sep a r :
  split_l sep (a ++ sep :: r) = split_l sep a ++ split_l sep r.
Proof.
  induction a as [|c a IH]; simpl.
  - now rewrite Ascii.eqb_refl.
  - destruct (Ascii.eqb c sep); [now rewrite IH|].
    rewrite IH. destruct (split_l sep a) eqn:E; [|reflexivity].
    now apply split_l_nonnil in E.
Qed.

(** The first field stops at the first separator. *)
Lemma split_l_first sep l :
  exists f fs, split_l sep l = f :: fs /\ ~ In sep f /\
    ((fs = [] /\ l = f) \/ exists t, l = f ++ sep :: t).
Proof.
  induction l as [|c l (f & fs & E & Hf & Hl)]; simpl.
  - exists [], []. repeat split; auto.
  - destruct (Ascii.eqb c sep) eqn:Hc.
    + apply Ascii.eqb_eq in Hc as ->.
      exists [], (split_l sep l). repeat split; auto.
      right. now exists l.
    + rewrite E. exists (c :: f), fs. repeat split.
      * intros [->|H]; [now rewrite Ascii.eqb_refl in Hc | auto].
      * destruct Hl as [[-> ->]|[t ->]]; [now left | right; now exists t].
Qed.

Lemma words_l_nonnil l d :
  In d l -> d <> space -> words_l l <> [].
Proof.
  unfold words_l. induction l as [|c l IH]; simpl; [contradiction|].
  intros Hin Hd. destruct (Ascii.eqb c space) eqn:Hc.
  - apply Ascii.eqb_eq in Hc as ->. simpl.
    destruct Hin as [<-|Hin]; [congruence | auto].
  - destruct (split_l space l); simpl; discriminate.
Qed.

Lemma not_space c : isspace c = false -> c <> space.
Proof. intros H ->. discriminate. Qed.

(** A trimmed string with two consecutive spaces has at least two words,
    and the first one ends at the first space. *)
Lemma words_l_two l :
  trimmed_l l -> contains_l [space; space] l = true ->
  exists w1 w2 rest tail,
    words_l l = w1 :: w2 :: rest /\ l = w1 ++ space :: tail /\
    w1 <> [] /\ ~ In space w1.
Proof.
  intros [Hhd Hlast] Hc.
  apply contains_l_app in Hc as (a & b & ->).
  destruct a as [|c a].
  { specialize (Hhd space (space :: b) eq_refl). discriminate. }
  assert (Hcs : c <> space) by (apply not_space, (Hhd c _ eq_refl)).
  assert (Hb : exists d, In d b /\ d <> space).
  { destruct b as [|b0 b'].
    - specialize (Hlast space ((c :: a) ++ [space])).
      rewrite <- app_assoc in Hlast. specialize (Hlast eq_refl). discriminate.
    - destruct (@exists_last _ (b0 :: b')) as (t & d & Hb); [discriminate|].
      rewrite Hb. exists d. split.
      + apply in_or_app. right. now left.
      + apply not_space. apply (Hlast d ((c :: a) ++ [space; space] ++ t)).
        rewrite Hb. now rewrite <- !app_assoc. }
  destruct Hb as (d & Hd & Hds).
  unfold words_l.
  change ((c :: a) ++ [space; space] ++ b)
    with ((c :: a) ++ space :: (space :: b)).
  rewrite split_l_app. rewrite filter_app.
  change (split_l space (space :: b)) with ([] :: split_l space b).
  cbn [filter nonempty_l].
  destruct (split_l_first space (c :: a)) as (f & fs & E & Hf & Hl).
  rewrite E.
  assert (Hfne : f <> []).
  { intros ->. destruct Hl as [[_ Hl]|[t Hl]]; [discriminate|].
    simpl in Hl. injection Hl as -> _. now apply Hcs. }
  destruct f as [|c' f]; [congruence|]. cbn [filter nonempty_l].
  pose proof (words_l_nonnil b d Hd Hds) as Hwb. unfold words_l in Hwb.
  assert (Htail : exists tail,
             (c :: a) ++ space :: space :: b = (c' :: f) ++ space :: tail).
  { destruct Hl as [[_ Hl]|[t Hl]]; rewrite Hl.
    - now exists (space :: b).
    - exists (t ++ space :: space :: b). now rewrite <- app_assoc. }
  destruct Htail as [tail Htail].
  destruct (filter nonempty_l fs) as [|w2 r] eqn:Efs.
  - destruct (filter nonempty_l (split_l space b)) as [|w2 r]; [congruence|].
    exists (c' :: f), w2, r, tail. cbn [app]. repeat split; auto; discriminate.
  - exists (c' :: f), w2, (r ++ filter nonempty_l (split_l space b)), tail.
    cbn [app]. repeat split; auto; discriminate.
Qed.

Lemma not_in_contains_l c l : ~ In c l -> contains_l [c] l = false.
Proof.
  induction l as [|a l IH]; simpl; intros H; [reflexivity|].
  rewrite IH by tauto. rewrite orb_false_r, andb_true_r.
  apply Ascii.eqb_neq. intros ->. apply H. now left.
Qed.

End PyStrFacts.

(** ** Argument parsing *)

Section Parsing.
Import PyStr PyStrFacts.

Lemma words_str token : words token = map str (words_l (chars token)).
Proof.
  unfold words, split, words_l.
  induction (split_l space (chars token)) as [|f fs IH]; simpl; [reflexivity|].
  rewrite truthy_str. destruct (nonempty_l f); simpl; now rewrite IH.
Qed.

Lemma sanitize_trimmed token : trimmed (_sanitize_token token).
Proof. apply strip_trimmed. Qed.

Lemma highlighting_step_trimmed st token :
  Forall trimmed (cleaned_args st) -> trimmed token ->
  Forall trimmed (cleaned_args (highlighting_step st token)).
Proof.
  intros Hst Ht. unfold highlighting_step.
  destruct (contains "--disable-highlighting" token).
  - destruct (negb _); simpl; [assumption|].
    apply Forall_app. split; [assumption|].
    constructor; [apply strip_trimmed | constructor].
  - simpl. apply Forall_app. split; [assumption|]. now constructor.
Qed.

Lemma flag_step_trimmed st token :
  Forall trimmed (cleaned_args st) -> trimmed token ->
  Forall trimmed (cleaned_args (flag_step st token)).
Proof.
  intros Hst Ht. unfold flag_step. destruct (contains "--api" token).
  - destruct (negb _); [assumption|].
    apply highlighting_step_trimmed; [assumption | apply strip_trimmed].
  - now apply highlighting_step_trimmed.
Qed.

(** Every token that survives the flag loop is trimmed. *)
Lemma strip_flags_trimmed raw_args :
  Forall trimmed (cleaned_args (strip_flags raw_args)).
Proof.
  unfold strip_flags.
  assert (H : forall tokens st,
             Forall trimmed tokens -> Forall trimmed (cleaned_args st) ->
             Forall trimmed (cleaned_args (fold_left flag_step tokens st))).
  { induction tokens as [|t ts IH]; intros st Hts Hst; simpl; [assumption|].
    inversion Hts; subst. apply IH; [assumption|].
    now apply flag_step_trimmed. }
  apply H; [|constructor].
  induction raw_args; simpl; constructor; [apply sanitize_trimmed | assumption].
Qed.

(** The words of a trimmed token with two consecutive spaces. *)
Lemma words_two token :
  trimmed token -> contains "  " token = true ->
  exists w1 w2 rest tail,
    words token = w1 :: w2 :: rest /\
    token = (w1 ++ " " ++ tail)%string /\
    truthy w1 = true /\ contains " " w1 = false.
Proof.
  intros Ht Hc.
  destruct (words_l_two (chars token) Ht Hc)
    as (w1 & w2 & rest & tail & Hw & Hl & Hne & Hsp).
  exists (str w1), (str w2), (map str rest), (str tail).
  repeat split.
  - now rewrite words_str, Hw.
  - rewrite <- (str_chars token), Hl, str_app. reflexivity.
  - rewrite truthy_str. destruct w1; [congruence | reflexivity].
  - unfold contains. rewrite chars_str. now apply not_in_contains_l.
Qed.

End Parsing.

(** C10: when the flag loop leaves a single token that holds two
    consecutive spaces, the token is split on spaces: the task is its first
    word (the part before the first space), the second word goes through
    [int()] as [max_steps] and raises [ValueError] when it is no integer, the
    third and fourth words become [session_id] and [browser_context_id]; a
    single token without two consecutive spaces is the task as a whole. *)
Theorem single_token_fallback_split (raw_args : list string) (token : string) :
  cleaned_args (strip_flags raw_args) = [token] ->
  (PyStr.contains "  " token = true ->
   exists w1 w2 rest tail,
     words token = w1 :: w2 :: rest /\
     token = (w1 ++ " " ++ tail)%string /\
     PyStr.truthy w1 = true /\ PyStr.contains " " w1 = false /\
     forall w,
       positional (resplit (cleaned_args (strip_flags raw_args))) w =
       match PyStr.int w2 with
       | Some n =>
           (Val {| task := w1; max_steps := n;
                   session_id := nth_error rest 0;
                   browser_context_id := nth_error rest 1 |}, w)
       | None => (Raise (Exception ValueError (int_error w2)), w)
       end)
  /\
  (PyStr.contains "  " token = false ->
   forall w,
     positional (resplit (cleaned_args (strip_flags raw_args))) w =
     (Val {| task := token; max_steps := 10;
             session_id := None; browser_context_id := None |}, w)).
Proof.
  intros Hargs. split; intros Hc.
  - assert (Ht : PyStr.trimmed token).
    { pose proof (strip_flags_trimmed raw_args) as H. rewrite Hargs in H.
      now inversion H. }
    destruct (words_two token Ht Hc) as (w1 & w2 & rest & tail & Hw & Htok & Hne & Hsp).
    exists w1, w2, rest, tail. repeat split; try assumption.
    intros w. rewrite Hargs. unfold resplit. rewrite Hc, Hw.
    unfold positional, py_int, bind, ret, raise.
    destruct (PyStr.int w2); reflexivity.
  - intros w. rewrite Hargs. unfold resplit. rewrite Hc. reflexivity.
Qed.

Lemma single_token_fallback_split_witness :
  (exists w1 w2 rest tail,
     words "open  the  page" = w1 :: w2 :: rest /\
     "open  the  page" = (w1 ++ " " ++ tail)%string /\
     PyStr.truthy w1 = true /\ PyStr.contains " " w1 = false /\
     forall w,
       positional (resplit (cleaned_args (strip_flags ["open  the  page"]))) w =
       match PyStr.int w2 with
       | Some n =>
           (Val {| task := w1; max_steps := n;
                   session_id := nth_error rest 0;
                   browser_context_id := nth_error rest 1 |}, w)
       | None => (Raise (Exception ValueError (int_error w2)), w)
       end)
  /\
  (forall w,
     positional (resplit (cleaned_args (strip_flags ["go to youtube"]))) w =
     (Val {| task := "go to youtube"; max_steps := 10;
             session_id := None; browser_context_id := None |}, w)).
Proof.
  split.
  - exact (proj1 (single_token_fallback_split
                    ["open  the  page"] "open  the  page" eq_refl) eq_refl).
  - exact (proj2 (single_token_fallback_split
                    ["go to youtube"] "go to youtube" eq_refl) eq_refl).
Defined.

(** The pasted command of the witness: the task shrinks to its first word and
    [int("the")] raises. *)
Example pasted_command_raises w :
  positional (resplit (cleaned_args (strip_flags ["open  the  page"]))) w
  = (Raise (Exception ValueError
       "invalid literal for int() with base 10: 'the'"), w).
Proof. reflexivity. Qed.

(** A flag stripped from the middle of a single quoted task leaves two
    consecutive spaces behind, and the task is split as well. *)
Example embedded_flag_task_is_split w :
  positional (resplit (cleaned_args (strip_flags ["go to --api youtube"]))) w
  = (Raise (Exception ValueError
       "invalid literal for int() with base 10: 'to'"), w).
Proof. reflexivity. Qed.

(** The second word goes to [int()] as it is: a separator that [strip()]
    would remove makes it fail. *)
Example pasted_command_separator w :
  positional
    (resplit (cleaned_args (strip_flags [("task  " ++ fs "5")%string]))) w
  = (Raise (Exception ValueError
       "invalid literal for int() with base 10: '\x1c5'"), w).
Proof. reflexivity. Qed.

Example pasted_command_args w :
  positional (resplit (cleaned_args (strip_flags ["search  15  s1  ws://h/x"]))) w
  = (Val {| task := "search"; max_steps := 15; session_id := Some "s1";
            browser_context_id := Some "ws://h/x" |}, w).
Proof. reflexivity. Qed.

(** ** Provider resolution *)

Ltac run_monad :=
  unfold bind, ret, raise, get_self, modify_self, lift, call, print_json,
    of_answer; cbn [fst snd self events].

Lemma load_environment_inv env w w1 :
  load_environment env w = (Val tt, w1) ->
  exists c, w1 = {| self := set_settings c (self w); events := events w |}.
Proof.
  unfold load_environment, py_int. run_monad.
  destruct (PyStr.int _); intros H; inversion H. eauto.
Qed.

Lemma main_dispatch env argv r w :
  parsed argv r ->
  main env argv w =
  if use_api (strip_flags (tl argv))
  then main_api env r (no_highlighting (strip_flags (tl argv))) w
  else main_local env r (no_highlighting (strip_flags (tl argv))) w.
Proof.
  intros (Hargv & Hargs & Hpos). unfold main.
  destruct (Nat.ltb_spec (List.length argv) 2); [lia|].
  destruct (Nat.ltb_spec (List.length (cleaned_args (strip_flags (tl argv)))) 1);
    [lia|].
  unfold bind. rewrite Hpos.
  destruct (use_api (strip_flags (tl argv))); reflexivity.
Qed.

Lemma setup_llm_refines w :
  llm (self w) = None ->
  setup_llm w =
  match resolve_spec (settings (self w)) with
  | Some p =>
      (Val tt, {| self := set_llm (Some (llm_of p (settings (self w)))) (self w);
                  events := events w |})
  | None => (Raise (Exception ValueError no_llm_message), w)
  end.
Proof.
  intros Hllm. unfold setup_llm. run_monad. rewrite Hllm.
  unfold resolve_spec, preference, complete.
  destruct (String.eqb_spec (llm_provider (settings (self w))) "azure") as [E|_].
  { rewrite E. cbn [andb String.eqb Ascii.eqb Bool.eqb].
    destruct (azure_configured _); reflexivity. }
  cbn [andb].
  destruct (String.eqb_spec (llm_provider (settings (self w))) "openai") as [E|_].
  { rewrite E. cbn [andb String.eqb Ascii.eqb Bool.eqb].
    destruct (opt_truthy (openai_api_key _)); [reflexivity|].
    destruct (azure_configured _); reflexivity. }
  cbn [andb].
  destruct (String.eqb_spec (llm_provider (settings (self w))) "google") as [E|_].
  { destruct (opt_truthy (google_api_key _)); [reflexivity|].
    destruct (azure_configured _); reflexivity. }
  cbn [andb]. destruct (azure_configured _); reflexivity.
Qed.

Lemma resolve_spec_none c :
  (forall p, complete p c = false) -> resolve_spec c = None.
Proof.
  intros H. unfold resolve_spec.
  destruct (preference c) as [p|]; [rewrite (H p)|]; now rewrite (H Azure).
Qed.

(** C5: [setup_llm] resolves the provider as the specification says: the
    preferred provider when its credential set is complete, otherwise Azure
    when Azure's is complete, otherwise [ValueError]; and a local run whose
    environment holds no complete credential set ends with that error before
    any session or agent work, the process exiting with status 1. *)
Theorem setup_llm_resolution :
  (forall w, llm (self w) = None ->
     setup_llm w =
     match resolve_spec (settings (self w)) with
     | Some p =>
         (Val tt,
          {| self := set_llm (Some (llm_of p (settings (self w)))) (self w);
             events := events w |})
     | None => (Raise (Exception ValueError no_llm_message), w)
     end)
  /\
  (forall c,
     (forall p, complete p c = true -> preference c = Some p ->
                resolve_spec c = Some p) /\
     (complete Azure c = true ->
      (forall p, preference c = Some p -> complete p c = false) ->
      resolve_spec c = Some Azure) /\
     ((forall p, complete p c = false) -> resolve_spec c = None))
  /\
  (forall env argv r w w1,
     parsed argv r -> use_api (strip_flags (tl argv)) = false ->
     load_environment env w = (Val tt, w1) ->
     (forall p, complete p (settings (self w1)) = false) ->
     exists w',
       main env argv w = (Raise (Exception ValueError no_llm_message), w') /\
       events w' = events w /\
       exit_status (fst (main env argv w)) = 1%Z).
Proof.
  split; [exact setup_llm_refines | split].
  - intros c. split; [|split].
    + intros p Hp Hpref. unfold resolve_spec. now rewrite Hpref, Hp.
    + intros Ha Hpref. unfold resolve_spec.
      destruct (preference c) as [p|]; [rewrite (Hpref p eq_refl)|];
        now rewrite Ha.
    + apply resolve_spec_none.
  - intros env argv r w w1 Hparsed Hapi Hload Hnone.
    rewrite (main_dispatch env argv r w Hparsed), Hapi.
    assert (E : exists w',
               main_local env r (no_highlighting (strip_flags (tl argv))) w
               = (Raise (Exception ValueError no_llm_message), w')
               /\ events w' = events w).
    { destruct (load_environment_inv env w w1 Hload) as [c ->].
      unfold main_local, init. unfold bind at 1 2. rewrite Hload.
      cbn [negb]. run_monad.
      rewrite setup_llm_refines by reflexivity.
      cbn [self settings set_llm set_settings set_disable_highlighting].
      cbn [self settings set_settings] in Hnone.
      rewrite (resolve_spec_none c Hnone).
      eexists. split; reflexivity. }
    destruct E as (w' & E & Hev). exists w'. rewrite E. auto.
Qed.

Lemma setup_llm_resolution_witness :
  setup_llm (world_with openai_settings)
  = (Val tt,
     {| self := set_llm (Some (ChatOpenAI "gpt-4o" "sk-test" temperature_07))
                  (self (world_with openai_settings));
        events := [] |})
  /\ resolve_spec openai_settings = Some OpenAI
  /\ resolve_spec fallback_settings = Some Azure
  /\ resolve_spec blank_settings = None
  /\ exists w',
       main (sample_env [] true true 200%Z []) [script; "go to youtube"] world0
       = (Raise (Exception ValueError no_llm_message), w') /\
       events w' = events world0 /\
       exit_status
         (fst (main (sample_env [] true true 200%Z [])
                 [script; "go to youtube"] world0)) = 1%Z.
Proof.
  destruct setup_llm_resolution as (H1 & H2 & H3).
  split; [exact (H1 (world_with openai_settings) eq_refl)|].
  split; [apply (proj1 (H2 openai_settings) OpenAI); reflexivity|].
  split.
  { apply (proj1 (proj2 (H2 fallback_settings))); [reflexivity|].
    intros p Hp. injection Hp as <-. reflexivity. }
  split.
  { apply (proj2 (proj2 (H2 blank_settings))). intros []; reflexivity. }
  eapply (H3 (sample_env [] true true 200%Z []) [script; "go to youtube"]
            {| task := "go to youtube"; max_steps := 10;
               session_id := None; browser_context_id := None |} world0).
  - split; [cbn; lia | split; [vm_compute; lia | intros w; reflexivity]].
  - reflexivity.
  - reflexivity.
  - intros []; reflexivity.
Defined.

(** ** Exceptions that reach a handler *)

Section Handlers.
Context {A B : Type}.

Lemma no_exit_ret (a : A) : no_exit (ret a).
Proof. intros w code w' H. discriminate. Qed.

Lemma no_exit_raise c msg : no_exit (@raise A c msg).
Proof. intros w code w' H. discriminate. Qed.

Lemma no_exit_bind (m : M A) (k : A -> M B) :
  no_exit m -> (forall a, no_exit (k a)) -> no_exit (bind m k).
Proof.
  intros Hm Hk w code w'. unfold bind.
  destruct (m w) as [[a|e] w1] eqn:E.
  - apply Hk.
  - intros H. inversion H; subst. now apply (Hm w code w').
Qed.

Lemma no_exit_lift (a : answer A) : no_exit (lift a).
Proof. intros w code w'. unfold lift. destruct a; discriminate. Qed.

Lemma no_exit_call ev (oracle : list event -> answer A) :
  no_exit (call ev oracle).
Proof.
  intros w code w'. unfold call. destruct (oracle _); discriminate.
Qed.

Lemma no_exit_try_except (body : M A) handler :
  no_exit body -> (forall c msg, no_exit (handler c msg)) ->
  no_exit (try_except body handler).
Proof.
  intros Hb Hh w code w'. unfold try_except.
  destruct (body w) as [[a|[c msg|code']] w1] eqn:E.
  - discriminate.
  - apply Hh.
  - now apply Hb in E.
Qed.

Lemma total_try_except (body : M A) handler :
  no_exit body -> (forall c msg, total (handler c msg)) ->
  total (try_except body handler).
Proof.
  intros Hb Hh w. unfold try_except.
  destruct (body w) as [[a|[c msg|code']] w1] eqn:E.
  - eauto.
  - apply Hh.
  - now apply Hb in E.
Qed.

End Handlers.

Lemma no_exit_get_self : no_exit get_self.
Proof. intros w code w' H. discriminate. Qed.

Lemma no_exit_modify_self f : no_exit (modify_self f).
Proof. intros w code w' H. discriminate. Qed.

Lemma no_exit_print_json doc : no_exit (print_json doc).
Proof. intros w code w' H. discriminate. Qed.

Lemma no_exit_py_get d k : no_exit (py_get d k).
Proof. destruct d; first [apply no_exit_ret | apply no_exit_raise]. Qed.

Lemma no_exit_or_overflow {A} (o : option A) : no_exit (or_overflow o).
Proof. destruct o; first [apply no_exit_ret | apply no_exit_raise]. Qed.

Lemma total_ret {A} (a : A) : total (ret a).
Proof. intros w. unfold ret. eauto. Qed.

Create HintDb script.

#[local] Hint Resolve no_exit_ret no_exit_raise no_exit_lift no_exit_call
  no_exit_get_self no_exit_modify_self no_exit_print_json no_exit_py_get
  no_exit_or_overflow total_ret : script.

Ltac no_exit_step :=
  first
    [ apply no_exit_bind; [|intros ?]
    | apply no_exit_try_except; [|intros ? ?]
    | solve [auto with script]
    | match goal with
      | |- no_exit (if ?b then _ else _) => destruct b
      | |- no_exit (match ?x with _ => _ end) => destruct x
      end ].

(** ** What a computation leaves as it is *)

Lemma count_app p l1 l2 : count p (l1 ++ l2) = count p l1 + count p l2.
Proof. unfold count. now rewrite filter_app, length_app. Qed.

Lemma count_snoc p l ev :
  count p (l ++ [ev]) = count p l + (if p ev then 1 else 0).
Proof. rewrite count_app. unfold count at 2. cbn. now destruct (p ev). Qed.

Section Preserves.
Context {A B X : Type} (f : World -> X).

Lemma preserves_ret (a : A) : preserves f (ret a).
Proof. intros w. reflexivity. Qed.

Lemma preserves_raise c msg : preserves f (@raise A c msg).
Proof. intros w. reflexivity. Qed.

Lemma preserves_lift (a : answer A) : preserves f (lift a).
Proof. intros w. reflexivity. Qed.

Lemma preserves_get_self : preserves f get_self.
Proof. intros w. reflexivity. Qed.

Lemma preserves_bind (m : M A) (k : A -> M B) :
  preserves f m -> (forall a, preserves f (k a)) -> preserves f (bind m k).
Proof.
  intros Hm Hk w. unfold bind. specialize (Hm w).
  destruct (m w) as [[a|e] w1]; cbn [snd] in *.
  - now rewrite Hk.
  - exact Hm.
Qed.

Lemma preserves_try_except (body : M A) handler :
  preserves f body -> (forall c msg, preserves f (handler c msg)) ->
  preserves f (try_except body handler).
Proof.
  intros Hb Hh w. unfold try_except. specialize (Hb w).
  destruct (body w) as [[a|[c msg|code]] w1]; cbn [snd] in *; try exact Hb.
  now rewrite Hh.
Qed.

End Preserves.

(** A count settled by the first part of a computation. *)
Lemma count_bind_keeps {A B} p n (m : M A) (k : A -> M B) w :
  count p (events (snd (m w))) = n -> (forall a, keeps p (k a)) ->
  count p (events (snd (bind m k w))) = n.
Proof.
  intros Hm Hk. unfold bind.
  destruct (m w) as [[a|e] w1]; cbn [snd] in *; [|exact Hm].
  now rewrite (Hk a w1).
Qed.

Lemma count_try_except_keeps {A} p n (body : M A) handler w :
  count p (events (snd (body w))) = n ->
  (forall c msg, keeps p (handler c msg)) ->
  count p (events (snd (try_except body handler w))) = n.
Proof.
  intros Hb Hh. unfold try_except.
  destruct (body w) as [[a|[c msg|code]] w1]; cbn [snd] in *; try exact Hb.
  now rewrite (Hh c msg w1).
Qed.

Lemma preserves_py_get {X} (f : World -> X) d k : preserves f (py_get d k).
Proof. destruct d; first [apply preserves_ret | apply preserves_raise]. Qed.

Lemma preserves_or_overflow {A X} (f : World -> X) (o : option A) :
  preserves f (or_overflow o).
Proof. destruct o; first [apply preserves_ret | apply preserves_raise]. Qed.

(** Calls and prints leave [self] alone. *)
Lemma self_call {A} ev (oracle : list event -> answer A) :
  preserves self (call ev oracle).
Proof. intros w. reflexivity. Qed.

Lemma self_print_json doc : preserves self (print_json doc).
Proof. intros w. reflexivity. Qed.

(** Updates of [self] leave the events alone. *)
Lemma keeps_modify_self p g : keeps p (modify_self g).
Proof. intros w. reflexivity. Qed.

Lemma keeps_call {A} p ev (oracle : list event -> answer A) :
  p ev = false -> keeps p (call ev oracle).
Proof.
  intros Hev w. unfold call. cbn [snd events].
  rewrite count_snoc, Hev. lia.
Qed.

Lemma keeps_print_json p doc : p (EvPrintJson doc) = false -> keeps p (print_json doc).
Proof.
  intros Hev w. unfold print_json. cbn [snd events].
  rewrite count_snoc, Hev. lia.
Qed.

#[local] Hint Resolve preserves_ret preserves_raise preserves_lift
  preserves_get_self preserves_py_get preserves_or_overflow self_call
  self_print_json keeps_modify_self : script.

Ltac preserves_step :=
  first
    [ apply preserves_bind; [|intros ?]
    | apply preserves_try_except; [|intros ? ?]
    | apply keeps_call; reflexivity
    | apply keeps_print_json; reflexivity
    | apply keeps_modify_self
    | solve [unfold keeps; auto with script]
    | match goal with
      | |- preserves _ (if ?b then _ else _) => destruct b
      | |- preserves _ (match ?x with _ => _ end) => destruct x
      | |- keeps _ (if ?b then _ else _) => destruct b
      | |- keeps _ (match ?x with _ => _ end) => destruct x
      end ].

Ltac keeps_step := preserves_step.

(** ** Session acquisition *)

Section Acquisition.
Variable env : Env.

Lemma no_exit_patch_highlighting : no_exit (patch_highlighting env).
Proof.
  intros w code w'. unfold patch_highlighting. run_monad.
  destruct (on_import_highlights env _) as [[]|[] msg]; discriminate.
Qed.

Lemma no_exit_create_agent_try task hint ms :
  no_exit (create_agent_try env task hint ms).
Proof.
  unfold create_agent_try.
  repeat first [apply no_exit_patch_highlighting | no_exit_step].
Qed.

(** One step of the recursion of [create_agent]. *)
Lemma create_agent_step task hint ms w :
  create_agent env task hint ms w =
  match create_agent_try env task hint ms w with
  | (Raise (Exception c msg), w') =>
      if opt_truthy hint then create_agent env task (Some "") ms w'
      else (Raise (Exception c msg), w')
  | r => r
  end.
Proof.
  funelim (create_agent env task hint ms w); rewrite Heq;
    try match goal with E : opt_truthy _ = _ |- _ => rewrite E end;
    reflexivity.
Qed.

(** With the hint cleared there is one attempt and no retry. *)
Lemma create_agent_cleared task ms w :
  create_agent env task (Some "") ms w
  = create_agent_try env task (Some "") ms w.
Proof.
  rewrite create_agent_step.
  destruct (create_agent_try env task (Some "") ms w) as [[a|[c msg|code]] w'];
    reflexivity.
Qed.

(** [create_agent] without its recursion: at most two attempts. *)
Lemma create_agent_closed task hint ms w :
  create_agent env task hint ms w =
  match create_agent_try env task hint ms w with
  | (Raise (Exception c msg), w') =>
      if opt_truthy hint then create_agent_try env task (Some "") ms w'
      else (Raise (Exception c msg), w')
  | r => r
  end.
Proof.
  rewrite create_agent_step.
  destruct (create_agent_try env task hint ms w) as [[a|[c msg|code]] w'];
    try reflexivity.
  now rewrite create_agent_cleared.
Qed.

Lemma no_exit_create_agent task hint ms :
  no_exit (create_agent env task hint ms).
Proof.
  intros w code w'. rewrite create_agent_closed.
  destruct (create_agent_try env task hint ms w) as [[a|[c msg|code']] w1] eqn:E.
  - discriminate.
  - destruct (opt_truthy hint); [apply no_exit_create_agent_try | discriminate].
  - now apply no_exit_create_agent_try in E.
Qed.

Lemma keeps_patch_highlighting : keeps is_attach (patch_highlighting env).
Proof.
  intros w. unfold patch_highlighting. run_monad.
  destruct (on_import_highlights env _) as [[]|[] msg]; cbn [snd events];
    rewrite count_snoc; cbn; lia.
Qed.

(** What follows the session in [create_agent_try] attaches to nothing. *)
Lemma keeps_create_agent_try_local task hint ms :
  opt_truthy hint = false \/
  (exists h, hint = Some h /\ PyStr.startswith "ws://" h = false) ->
  keeps is_attach (create_agent_try env task hint ms).
Proof.
  intros H. unfold create_agent_try.
  apply preserves_bind.
  - destruct hint as [h|]; [|apply preserves_ret].
    destruct H as [H|(h' & E & H)].
    + cbn [opt_truthy] in H. rewrite H. apply preserves_ret.
    + injection E as <-. rewrite H, andb_false_r. apply preserves_ret.
  - intros session. repeat first [apply keeps_patch_highlighting | keeps_step].
Qed.

Lemma startswith_truthy p s :
  PyStr.truthy p = true -> PyStr.startswith p s = true -> PyStr.truthy s = true.
Proof. unfold PyStr.startswith. destruct p, s; simpl; congruence. Qed.

(** With a [ws://] hint the first attempt attaches exactly once. *)
Lemma attaches_create_agent_try_ws task endpoint ms w :
  PyStr.startswith "ws://" endpoint = true ->
  attaches (events (snd (create_agent_try env task (Some endpoint) ms w)))
  = S (attaches (events w)).
Proof.
  intros Hws. unfold create_agent_try, attaches.
  rewrite Hws, (startswith_truthy "ws://" endpoint eq_refl Hws). cbn [andb].
  apply count_bind_keeps.
  - unfold bind, call, ret.
    destruct (on_BrowserSession env _) as [[]|c msg]; cbn [of_answer snd events];
      rewrite count_snoc; cbn; lia.
  - intros session. repeat first [apply keeps_patch_highlighting | keeps_step].
Qed.

(** C1: with a hint that starts with [ws://], an attempt that raises is
    followed by exactly one more run of the acquisition body, with the hint
    cleared: its outcome, a failure included, is the outcome of
    [create_agent], and it attaches to no remote browser; a hint that is
    absent or does not start with [ws://] never leads to a remote attach. *)
Theorem create_agent_fallback_once (task : string) (ms : Z) :
  (forall endpoint w c msg w1,
     PyStr.startswith "ws://" endpoint = true ->
     create_agent_try env task (Some endpoint) ms w
     = (Raise (Exception c msg), w1) ->
     create_agent env task (Some endpoint) ms w
     = create_agent_try env task (Some "") ms w1 /\
     create_agent env task (Some "") ms w1
     = create_agent_try env task (Some "") ms w1 /\
     attaches (events (snd (create_agent env task (Some endpoint) ms w)))
     = attaches (events w1) /\
     attaches (events w1) = S (attaches (events w)))
  /\
  (forall hint w,
     hint = None \/
     (exists h, hint = Some h /\ PyStr.startswith "ws://" h = false) ->
     attaches (events (snd (create_agent env task hint ms w)))
     = attaches (events w)).
Proof.
  split.
  - intros endpoint w c msg w1 Hws Htry.
    assert (Hcleared : keeps is_attach (create_agent_try env task (Some "") ms)).
    { apply keeps_create_agent_try_local. now left. }
    assert (Hfinal : create_agent env task (Some endpoint) ms w
                     = create_agent_try env task (Some "") ms w1).
    { rewrite create_agent_closed, Htry. cbn [opt_truthy].
      now rewrite (startswith_truthy "ws://" endpoint eq_refl Hws). }
    split; [exact Hfinal|]. split; [apply create_agent_cleared|]. split.
    + rewrite Hfinal. apply Hcleared.
    + pose proof (attaches_create_agent_try_ws task endpoint ms w Hws) as H.
      now rewrite Htry in H.
  - intros hint w Hhint.
    assert (Hfirst : keeps is_attach (create_agent_try env task hint ms)).
    { apply keeps_create_agent_try_local.
      destruct Hhint as [->|H]; [now left | now right]. }
    assert (Hcleared : keeps is_attach (create_agent_try env task (Some "") ms)).
    { apply keeps_create_agent_try_local. now left. }
    rewrite create_agent_closed. specialize (Hfirst w).
    destruct (create_agent_try env task hint ms w) as [[a|[c msg|code]] w1];
      cbn [snd] in *; try exact Hfirst.
    destruct (opt_truthy hint); [|exact Hfirst].
    exact (eq_trans (Hcleared w1) Hfirst).
Qed.

End Acquisition.

Lemma create_agent_fallback_once_witness :
  let env := sample_env azure_vars false true 200%Z [] in
  let w1 := {| self := self world0;
               events := [EvBrowserSession "ws://bad-host/x"] |} in
  (create_agent env "go to youtube" (Some "ws://bad-host/x") 10 world0
   = create_agent_try env "go to youtube" (Some "") 10 w1 /\
   create_agent env "go to youtube" (Some "") 10 w1
   = create_agent_try env "go to youtube" (Some "") 10 w1 /\
   attaches (events (snd (create_agent env "go to youtube"
                            (Some "ws://bad-host/x") 10 world0)))
   = attaches (events w1) /\
   attaches (events w1) = S (attaches (events world0)))
  /\ attaches (events (snd (create_agent env "go to youtube" None 10 world0)))
     = attaches (events world0)
  /\ attaches (events (snd (create_agent env "go to youtube"
                              (Some "context_123") 10 world0)))
     = attaches (events world0).
Proof.
  intros env w1.
  destruct (create_agent_fallback_once env "go to youtube" 10) as [H1 H2].
  split; [|split].
  - apply (H1 "ws://bad-host/x" world0
             (OtherException "ConnectionError") "cannot reach browser" w1);
      reflexivity.
  - apply H2. now left.
  - apply H2. right. exists "context_123". split; reflexivity.
Defined.

(** ** The usage tracker *)

Section Usage.

Lemma sum_cost_from_none l :
  fold_left
    (fun total e =>
       match total, entry_cost e with
       | Some t, Some cost => Some (t + cost)%float
       | _, _ => None
       end) l None = None.
Proof. induction l as [|e l IH]; [reflexivity | exact IH]. Qed.

(** The tokens of the loop are the sum of the counts, and the loop ends when
    every record has a cost. *)
Lemma usage_loop_tokens l acc :
  option_map fst (usage_loop l acc)
  = if forallb priced l then Some (fst acc + sum_tokens l)%Z else None.
Proof.
  revert acc. induction l as [|e l IH]; intros acc;
    cbn [usage_loop forallb sum_tokens fold_right option_map].
  - f_equal. lia.
  - unfold add_entry. unfold priced at 1.
    destruct (entry_cost e) as [cost|]; cbn [andb].
    + rewrite IH. cbn [fst]. fold (sum_tokens l).
      destruct (forallb priced l); [f_equal; lia | reflexivity].
    + reflexivity.
Qed.

(** The cost of the loop is the running float sum of the costs. *)
Lemma usage_loop_cost l acc :
  option_map snd (usage_loop l acc)
  = fold_left
      (fun total e =>
         match total, entry_cost e with
         | Some t, Some cost => Some (t + cost)%float
         | _, _ => None
         end) l (Some (snd acc)).
Proof.
  revert acc. induction l as [|e l IH]; intros acc;
    cbn [usage_loop fold_left option_map]; [reflexivity|].
  unfold add_entry. destruct (entry_cost e) as [cost|].
  - rewrite IH. reflexivity.
  - now rewrite sum_cost_from_none.
Qed.

Lemma usage_loop_totals l u :
  usage_loop l (0%Z, 0%float) = Some u ->
  fst u = sum_tokens l /\ sum_cost l = Some (snd u).
Proof.
  intros H. split.
  - pose proof (usage_loop_tokens l (0%Z, 0%float)) as Ht.
    rewrite H in Ht. cbn [option_map fst] in Ht.
    destruct (forallb priced l); [|discriminate].
    injection Ht as ->. lia.
  - pose proof (usage_loop_cost l (0%Z, 0%float)) as Hc.
    rewrite H in Hc. cbn [option_map snd] in Hc. unfold sum_cost.
    now rewrite <- Hc.
Qed.

(** Without a baseline nothing is counted. *)
Lemma final_usage_without_baseline a :
  final_usage None a = Some (0%Z, 0%float).
Proof.
  unfold final_usage.
  destruct (token_cost_service a) as [[[|e h]]|]; reflexivity.
Qed.

(** An empty history gives no baseline. *)
Lemma initial_usage_fresh a :
  token_cost_service a = Some {| usage_history := [] |} ->
  initial_usage a = None.
Proof. unfold initial_usage. now intros ->. Qed.

(** With a baseline, the records of the run and only they are counted. *)
Lemma final_usage_after_baseline a n new :
  initial_usage a = Some n ->
  final_usage (Some n) (record_usage new a) = usage_loop new (0%Z, 0%float).
Proof.
  unfold initial_usage, final_usage, record_usage. cbn [token_cost_service].
  destruct (token_cost_service a) as [[h]|]; [|discriminate].
  cbn [usage_history]. destruct h as [|e h]; [discriminate|].
  intros H. injection H as <-.
  cbn [app].
  change (e :: h ++ new) with ((e :: h) ++ new).
  change (S (List.length h)) with (List.length (e :: h)).
  generalize (e :: h). intros l.
  rewrite length_app, skipn_app, skipn_all, Nat.sub_diag. cbn [app skipn].
  destruct new as [|e' new].
  - rewrite Nat.add_0_r, Nat.ltb_irrefl. reflexivity.
  - destruct (Nat.ltb_spec (List.length l)
                (List.length l + List.length (e' :: new))); [reflexivity|].
    cbn [List.length] in *. lia.
Qed.

End Usage.

(** ** The local execution path *)

Section Local.
Variable env : Env.

Lemma no_exit_run a : no_exit (run env a).
Proof.
  intros w code w'. unfold run.
  destruct (snd (on_run env _)); discriminate.
Qed.

Lemma no_exit_execute_task_try task hint ms :
  no_exit (execute_task_try env task hint ms).
Proof.
  unfold execute_task_try.
  repeat first [apply no_exit_create_agent | apply no_exit_run | no_exit_step].
Qed.

(** A value of the [try] block is the success document. *)
Lemma execute_task_try_val task hint ms w d w' :
  execute_task_try env task hint ms w = (Val d, w') ->
  exists r usage, d = execution_data (self w') task hint r usage.
Proof.
  unfold execute_task_try, bind, get_self, ret.
  destruct (create_agent env task hint ms w) as [[a|e] w1]; [|discriminate].
  destruct (run env a w1) as [[[a' r]|e] w2]; [|discriminate].
  unfold or_overflow, ret, raise.
  destruct (final_usage _ _) as [usage|]; [|discriminate].
  intros H. injection H as <- <-. eauto.
Qed.

(** The two exits of [execute_task]. *)
Lemma execute_task_cases task hint ms w :
  (exists d w', execute_task_try env task hint ms w = (Val d, w') /\
                execute_task env task hint ms w = (Val d, w'))
  \/
  (exists c msg w',
      execute_task_try env task hint ms w = (Raise (Exception c msg), w') /\
      execute_task env task hint ms w
      = (Val (error_data (self w') task hint msg), w')).
Proof.
  unfold execute_task, try_except.
  destruct (execute_task_try env task hint ms w) as [[d|[c msg|code]] w'] eqn:E.
  - left. eauto.
  - right. exists c, msg, w'. split; reflexivity.
  - now apply no_exit_execute_task_try in E.
Qed.

Lemma execute_task_total task hint ms : total (execute_task env task hint ms).
Proof.
  intros w.
  destruct (execute_task_cases task hint ms w)
    as [(d & w' & _ & E)|(c & msg & w' & _ & E)]; rewrite E; eauto.
Qed.

(** X25: whatever the run appends, a success built on an agent whose
    history was empty at the baseline reports no usage. *)
Lemma execute_task_try_fresh_history task hint ms w a w1 d w' :
  create_agent env task hint ms w = (Val a, w1) ->
  token_cost_service a = Some {| usage_history := [] |} ->
  execute_task_try env task hint ms w = (Val d, w') ->
  field "token_usage" d
  = Some (JDict [ ("total_tokens", JInt 0); ("total_cost", JFloat 0);
                  ("model", JStr (llm_provider (settings (self w')))) ]).
Proof.
  intros Hcreate Hfresh. unfold execute_task_try, bind, get_self, ret.
  rewrite Hcreate. unfold initial_usage. rewrite Hfresh. cbn [usage_history].
  destruct (run env a w1) as [[[a' r]|e] w2]; [|discriminate].
  cbn [fst]. rewrite final_usage_without_baseline. unfold or_overflow, ret.
  intros H. injection H as <- <-. reflexivity.
Qed.

(** X24: with a non-empty history at the baseline, a success reports the
    totals of the records of this run, and of no earlier one: the sum of
    their token counts, and as cost the float that adding their costs to
    [0.0] one after the other gives. *)
Lemma execute_task_try_delta task hint ms w a w1 n d w' :
  create_agent env task hint ms w = (Val a, w1) ->
  initial_usage a = Some n ->
  execute_task_try env task hint ms w = (Val d, w') ->
  let new := fst (on_run env (events w1 ++ [EvRun])) in
  exists cost,
    sum_cost new = Some cost /\
    field "token_usage" d
    = Some (JDict [ ("total_tokens", JInt (sum_tokens new));
                    ("total_cost", JFloat cost);
                    ("model", JStr (llm_provider (settings (self w')))) ]).
Proof.
  intros Hcreate Hbase. unfold execute_task_try, bind, get_self, ret.
  rewrite Hcreate, Hbase. unfold run.
  destruct (snd (on_run env (events w1 ++ [EvRun]))) as [r|c msg];
    [|discriminate].
  cbn [fst snd]. rewrite (final_usage_after_baseline a n _ Hbase).
  unfold or_overflow, ret, raise.
  destruct (usage_loop (fst (on_run env (events w1 ++ [EvRun])))
              (0%Z, 0%float)) as [usage|] eqn:Hloop; [|discriminate].
  intros H. injection H as <- <-. cbn zeta.
  destruct (usage_loop_totals _ _ Hloop) as [Ht Hc].
  exists (snd usage). split; [exact Hc|].
  cbv [field execution_data lookup String.eqb Ascii.eqb Bool.eqb].
  now rewrite Ht.
Qed.

(** A record whose count is out of the range of floats ends the [try] block
    with [OverflowError]. *)
Lemma execute_task_try_overflow task hint ms w a w1 n r :
  create_agent env task hint ms w = (Val a, w1) ->
  initial_usage a = Some n ->
  snd (on_run env (events w1 ++ [EvRun])) = Returns r ->
  forallb priced (fst (on_run env (events w1 ++ [EvRun]))) = false ->
  fst (execute_task_try env task hint ms w)
  = Raise (Exception (OtherException "OverflowError") overflow_message).
Proof.
  intros Hcreate Hbase Hrun Hpriced.
  unfold execute_task_try, bind, get_self, ret.
  rewrite Hcreate, Hbase. unfold run. rewrite Hrun.
  cbn [fst snd]. rewrite (final_usage_after_baseline a n _ Hbase).
  pose proof (usage_loop_tokens (fst (on_run env (events w1 ++ [EvRun])))
                (0%Z, 0%float)) as Ht.
  rewrite Hpriced in Ht.
  destruct (usage_loop _ _); [discriminate | reflexivity].
Qed.

(** C6: [execute_task] returns a document for every input and never raises;
    an exception raised while the agent is built or run becomes the
    document [error_data], with [success] false and the message of the
    exception as [error]. *)
Theorem execute_task_never_raises (task : string) (hint : option string)
    (ms : Z) (w : World) :
  exists d w',
    execute_task env task hint ms w = (Val d, w') /\
    forall c msg w1,
      execute_task_try env task hint ms w = (Raise (Exception c msg), w1) ->
      w' = w1 /\ d = error_data (self w1) task hint msg /\
      field "success" d = Some (JBool false) /\
      field "error" d = Some (JStr msg).
Proof.
  destruct (execute_task_cases task hint ms w)
    as [(d & w' & Htry & Hexec)|(c & msg & w' & Htry & Hexec)].
  - exists d, w'. split; [exact Hexec|].
    intros c msg w1 H. rewrite Htry in H. discriminate.
  - exists (error_data (self w') task hint msg), w'. split; [exact Hexec|].
    intros c' msg' w1 H. rewrite Htry in H. injection H as <- <- <-.
    repeat split.
Qed.

(** C7: the result of [execute_task] is a JSON object with a boolean
    [success]; when it is true [final_result] is present, a string, and
    [error] is absent; when it is false [error] is present, a string, and
    [final_result] is absent. *)
Theorem execute_task_result_shape (task : string) (hint : option string)
    (ms : Z) (w : World) :
  exists items b w',
    execute_task env task hint ms w = (Val (JDict items), w') /\
    lookup "success" items = Some (JBool b) /\
    (b = true ->
     (exists s, lookup "final_result" items = Some (JStr s)) /\
     lookup "error" items = None) /\
    (b = false ->
     (exists s, lookup "error" items = Some (JStr s)) /\
     lookup "final_result" items = None).
Proof.
  destruct (execute_task_cases task hint ms w)
    as [(d & w' & Htry & Hexec)|(c & msg & w' & Htry & Hexec)].
  - destruct (execute_task_try_val _ _ _ _ _ _ Htry) as (r & usage & ->).
    eexists _, true, w'. split; [exact Hexec|].
    split; [reflexivity|]. split; [|discriminate].
    intros _. split; [now exists (rendered r) | reflexivity].
  - eexists _, false, w'. split; [exact Hexec|].
    split; [reflexivity|]. split; [discriminate|].
    intros _. split; [now exists msg | reflexivity].
Qed.

End Local.

(** ** The remote path *)

Section Remote.
Variable env : Env.

Lemma no_exit_create_session : no_exit (create_session_via_api env).
Proof. unfold create_session_via_api. repeat no_exit_step. Qed.

Lemma no_exit_execute_via_api sid t ms :
  no_exit (execute_task_via_api env sid t ms).
Proof. unfold execute_task_via_api. repeat no_exit_step. Qed.

Lemma no_exit_monitor sid tid : no_exit (monitor_task_progress env sid tid).
Proof. unfold monitor_task_progress. repeat no_exit_step. Qed.

Lemma no_exit_main_api_try r : no_exit (main_api_try env r).
Proof.
  unfold main_api_try.
  repeat first [ apply no_exit_create_session | apply no_exit_execute_via_api
               | apply no_exit_monitor | no_exit_step ].
Qed.

Lemma self_create_session : preserves self (create_session_via_api env).
Proof. unfold create_session_via_api. repeat preserves_step. Qed.

Lemma self_execute_via_api sid t ms :
  preserves self (execute_task_via_api env sid t ms).
Proof. unfold execute_task_via_api. repeat preserves_step. Qed.

Lemma self_monitor sid tid : preserves self (monitor_task_progress env sid tid).
Proof. unfold monitor_task_progress. repeat preserves_step. Qed.

(** The remote path never touches the agent object, its LLM included. *)
Lemma self_main_api_try r : preserves self (main_api_try env r).
Proof.
  unfold main_api_try.
  repeat first [ apply self_create_session | apply self_execute_via_api
               | apply self_monitor | preserves_step ].
Qed.

Lemma keeps_create_session p :
  p (EvPost SessionsCreate (JDict [])) = false ->
  keeps p (create_session_via_api env).
Proof.
  intros Hp. unfold create_session_via_api.
  repeat first [apply keeps_call; exact Hp | preserves_step].
Qed.

Lemma keeps_execute_via_api p sid t ms :
  p (EvPost BrowserUseExecute (execute_payload sid t ms)) = false ->
  keeps p (execute_task_via_api env sid t ms).
Proof.
  intros Hp. unfold execute_task_via_api.
  repeat first [apply keeps_call; exact Hp | preserves_step].
Qed.

Lemma keeps_monitor p sid tid :
  p (EvGet (BrowserUseStatus tid)) = false ->
  keeps p (monitor_task_progress env sid tid).
Proof.
  intros Hp. unfold monitor_task_progress.
  repeat first [apply keeps_call; exact Hp | preserves_step].
Qed.

(** An HTTP exchange is one call: whatever its answer, the events grow by
    the call alone. *)
Lemma exchange_events {A} ev (k : HttpResponse -> M A) handler oracle w :
  (forall r, preserves events (k r)) ->
  (forall c msg, preserves events (handler c msg)) ->
  events (snd (try_except (r <- call ev oracle ;; k r) handler w))
  = events w ++ [ev].
Proof.
  intros Hk Hh. unfold try_except, bind, call.
  destruct (oracle (events w ++ [ev])) as [r|c msg]; cbn [of_answer].
  - specialize (Hk r {| self := self w; events := events w ++ [ev] |}).
    destruct (k r _) as [[a|[c msg|code]] w1]; cbn [snd] in *; try exact Hk.
    now rewrite Hh.
  - now rewrite Hh.
Qed.

Lemma create_session_events w :
  events (snd (create_session_via_api env w))
  = events w ++ [EvPost SessionsCreate (JDict [])].
Proof.
  unfold create_session_via_api. apply exchange_events.
  - intros r. repeat preserves_step.
  - intros c msg. apply preserves_ret.
Qed.

Lemma monitor_events sid tid w :
  events (snd (monitor_task_progress env sid tid w))
  = events w ++ [EvGet (BrowserUseStatus tid)].
Proof.
  unfold monitor_task_progress. apply exchange_events.
  - intros r. repeat preserves_step.
  - intros c msg. apply preserves_ret.
Qed.

Lemma total_monitor sid tid : total (monitor_task_progress env sid tid).
Proof.
  unfold monitor_task_progress. apply total_try_except.
  - repeat no_exit_step.
  - intros c msg. apply total_ret.
Qed.

(** A failed session creation answers [None] after its one call. *)
Lemma create_session_failed w :
  creation_failed (on_post env (events w ++ [EvPost SessionsCreate (JDict [])])) ->
  create_session_via_api env w
  = (Val JNull, {| self := self w;
                   events := events w ++ [EvPost SessionsCreate (JDict [])] |}).
Proof.
  unfold create_session_via_api, try_except, creation_failed. run_monad.
  destruct (on_post env _) as [r|c msg]; [|reflexivity].
  intros Hstatus. apply Z.eqb_neq in Hstatus. rewrite Hstatus.
  destruct (body_text r); reflexivity.
Qed.

(** X26: when the submission returns a task id, the status endpoint is
    polled twice, and the object of the submission is printed. *)
Lemma main_api_try_polls_twice r w sid w2 result w3 tid :
  create_session_via_api env w = (Val sid, w2) -> json_truthy sid = true ->
  execute_task_via_api env sid (task r) (max_steps r) w2 = (Val result, w3) ->
  json_truthy result = true ->
  field "taskId" result = Some tid -> json_truthy tid = true ->
  events (snd (main_api_try env r w))
  = events w3 ++ [EvGet (BrowserUseStatus tid); EvGet (BrowserUseStatus tid);
                  EvPrintJson result].
Proof.
  intros Hcreate Hsid Hexec Hres Hfield Htid.
  unfold main_api_try. unfold bind at 1. rewrite Hcreate, Hsid. cbn [negb].
  unfold bind at 1. rewrite Hexec, Hres. cbn [negb].
  destruct result as [| | | | | |items]; try discriminate.
  cbn [field] in Hfield. cbn [py_get]. rewrite Hfield.
  unfold bind at 1. unfold ret at 1. rewrite Htid.
  unfold bind at 1. unfold bind at 1.
  destruct (total_monitor sid tid w3) as (v1 & w4 & E1).
  pose proof (monitor_events sid tid w3) as Hev1. rewrite E1 in *.
  cbn [snd] in Hev1. unfold ret at 1.
  unfold bind at 1. unfold ret at 1. rewrite Htid.
  unfold bind at 1. unfold bind at 1.
  destruct (total_monitor sid tid w4) as (v2 & w5 & E2).
  pose proof (monitor_events sid tid w4) as Hev2. rewrite E2 in *.
  cbn [snd] in Hev2. unfold ret at 1. unfold print_json. cbn [snd events].
  rewrite Hev2, Hev1. now rewrite <- !app_assoc.
Qed.

End Remote.

(** ** The process *)

Section Process.
Variable env : Env.

Lemma events_modify_self g : preserves events (modify_self g).
Proof. intros w. reflexivity. Qed.

Lemma no_exit_setup_llm : no_exit setup_llm.
Proof. unfold setup_llm. repeat no_exit_step. Qed.

Lemma events_setup_llm : preserves events setup_llm.
Proof.
  unfold setup_llm. repeat first [apply events_modify_self | preserves_step].
Qed.

Lemma no_exit_init defer no_hl : no_exit (init env defer no_hl).
Proof.
  unfold init, load_environment, py_int.
  repeat first [apply no_exit_setup_llm | no_exit_step].
Qed.

(** Building the agent object calls no collaborator. *)
Lemma events_init defer no_hl : preserves events (init env defer no_hl).
Proof.
  unfold init, load_environment, py_int.
  repeat first [ apply events_setup_llm | apply events_modify_self
               | preserves_step ].
Qed.

(** With the LLM deferred only [BROWSER_PORT] can make the constructor
    fail, and the LLM stays unset. *)
Lemma init_deferred no_hl w p :
  PyStr.int (getenv_or env "BROWSER_PORT" "9222") = Some p ->
  exists w1, init env true no_hl w = (Val tt, w1) /\
             llm (self w1) = None /\ events w1 = events w.
Proof.
  intros Hport. unfold init, load_environment, py_int. rewrite Hport.
  eexists. split; [reflexivity|]. split; reflexivity.
Qed.

Lemma init_deferred_llm no_hl w w1 :
  init env true no_hl w = (Val tt, w1) -> llm (self w1) = None.
Proof.
  unfold init, load_environment, py_int.
  destruct (PyStr.int _); run_monad; intros H; inversion H. reflexivity.
Qed.

(** The remote branch returns normally once the agent object exists. *)
Lemma main_api_returns r no_hl w w1 :
  init env true no_hl w = (Val tt, w1) ->
  exists w', main_api env r no_hl w = (Val tt, w') /\ self w' = self w1.
Proof.
  intros Hinit. unfold main_api. unfold bind at 1. rewrite Hinit.
  assert (Htotal : total (try_except (main_api_try env r) (fun _ _ => ret tt))).
  { apply total_try_except; [apply no_exit_main_api_try|].
    intros c msg. apply total_ret. }
  assert (Hself : preserves self
                    (try_except (main_api_try env r) (fun _ _ => ret tt))).
  { apply preserves_try_except; [apply self_main_api_try|].
    intros c msg. apply preserves_ret. }
  destruct (Htotal w1) as ([] & w' & E). specialize (Hself w1).
  rewrite E in Hself. exists w'. split; [exact E | exact Hself].
Qed.

(** C3 (amended): in RemoteAPI mode, when the session-creation call raises
    or answers with a status other than 200, the run ends there: the one
    session-creation call is the only event (no task submission, no second
    attempt, no document printed) and [main] returns normally. *)
Theorem session_creation_failure_stops
    (argv : list string) (r : TaskRequest) (w w1 : World) :
  parsed argv r ->
  use_api (strip_flags (tl argv)) = true ->
  init env true (no_highlighting (strip_flags (tl argv))) w = (Val tt, w1) ->
  creation_failed
    (on_post env (events w ++ [EvPost SessionsCreate (JDict [])])) ->
  main env argv w
  = (Val tt, {| self := self w1;
                events := events w ++ [EvPost SessionsCreate (JDict [])] |}).
Proof.
  intros Hparsed Hapi Hinit Hfail.
  rewrite (main_dispatch env argv r w Hparsed), Hapi.
  pose proof (events_init true (no_highlighting (strip_flags (tl argv))) w)
    as Hev.
  rewrite Hinit in Hev. cbn [snd] in Hev.
  unfold main_api. unfold bind at 1. rewrite Hinit.
  unfold try_except, main_api_try. unfold bind at 1.
  rewrite create_session_failed by now rewrite Hev.
  cbn [json_truthy negb]. unfold ret. now rewrite Hev.
Qed.

Lemma init_deferred_cases no_hl w :
  (exists w1, init env true no_hl w = (Val tt, w1) /\ llm (self w1) = None) \/
  (exists c msg, init env true no_hl w = (Raise (Exception c msg), w)).
Proof.
  unfold init, load_environment, py_int.
  destruct (PyStr.int _); run_monad.
  - left. eexists. split; reflexivity.
  - right. eauto.
Qed.

(** C9: a RemoteAPI run builds the agent object with its LLM deferred: no
    provider is resolved at any point of the run (the LLM is still unset
    when [main] ends), and whatever the credentials in the environment,
    with none at all too, the constructor succeeds, [main] returns normally
    and the session-creation call is made, once. *)
Theorem api_mode_defers_llm
    (argv : list string) (r : TaskRequest) (w : World) :
  parsed argv r ->
  use_api (strip_flags (tl argv)) = true ->
  (llm (self w) = None -> llm (self (snd (main env argv w))) = None)
  /\
  (forall p,
     PyStr.int (getenv_or env "BROWSER_PORT" "9222") = Some p ->
     exists w',
       main env argv w = (Val tt, w') /\
       llm (self w') = None /\
       count is_session_post (events w')
       = S (count is_session_post (events w))).
Proof.
  intros Hparsed Hapi. split.
  { intros Hllm. rewrite (main_dispatch env argv r w Hparsed), Hapi.
    destruct (init_deferred_cases (no_highlighting (strip_flags (tl argv))) w)
      as [(w1 & Hinit & Hnone)|(c & msg & Hinit)].
    - destruct (main_api_returns r _ w w1 Hinit) as (w' & -> & Hself).
      cbn [snd]. now rewrite Hself.
    - unfold main_api. unfold bind at 1. now rewrite Hinit. }
  intros p Hport.
  rewrite (main_dispatch env argv r w Hparsed), Hapi.
  destruct (init_deferred (no_highlighting (strip_flags (tl argv))) w p Hport)
    as (w1 & Hinit & Hllm & Hev).
  destruct (main_api_returns r _ w w1 Hinit) as (w' & Hmain & Hself).
  exists w'. split; [exact Hmain|]. split; [now rewrite Hself|].
  unfold main_api in Hmain. unfold bind at 1 in Hmain. rewrite Hinit in Hmain.
  assert (Hcount :
    count is_session_post
      (events (snd (try_except (main_api_try env r) (fun _ _ => ret tt) w1)))
    = S (count is_session_post (events w1))).
  { apply count_try_except_keeps; [|intros c msg; apply preserves_ret].
    unfold main_api_try. apply count_bind_keeps.
    - rewrite create_session_events, count_snoc. cbn. lia.
    - intros sid.
      repeat first [ apply keeps_execute_via_api; reflexivity
                   | apply keeps_monitor; reflexivity
                   | preserves_step ]. }
  rewrite Hmain in Hcount. cbn [snd] in Hcount. now rewrite Hcount, Hev.
Qed.

Lemma total_cleanup : total (cleanup env).
Proof.
  unfold cleanup. apply total_try_except.
  - repeat no_exit_step.
  - intros c msg. apply total_ret.
Qed.

(** The local branch returns normally once the agent object exists: the
    handler with [sys.exit(1)] is never entered. *)
Lemma main_local_returns r no_hl w w1 :
  init env false no_hl w = (Val tt, w1) ->
  exists w', main_local env r no_hl w = (Val tt, w').
Proof.
  intros Hinit. unfold main_local. unfold bind at 1. rewrite Hinit.
  unfold try_finally, try_except, main_local_try. unfold bind at 1.
  destruct (execute_task_total env (task r) (browser_context_id r)
              (max_steps r) w1) as (d & w2 & E).
  rewrite E. unfold print_json.
  destruct (total_cleanup {| self := self w2;
                             events := events w2 ++ [EvPrintJson d] |})
    as ([] & w3 & Ec).
  rewrite Ec. eauto.
Qed.

Lemma init_cases defer no_hl w :
  (exists w1, init env defer no_hl w = (Val tt, w1)) \/
  (exists c msg w1, init env defer no_hl w = (Raise (Exception c msg), w1) /\
                    events w1 = events w).
Proof.
  pose proof (events_init defer no_hl w) as Hev.
  destruct (init env defer no_hl w) as [[[]|[c msg|code]] w1] eqn:E.
  - left. eauto.
  - right. exists c, msg, w1. split; [reflexivity | exact Hev].
  - now apply no_exit_init in E.
Qed.

Lemma positional_cases args w :
  (exists r, positional args w = (Val r, w)) \/
  (exists c msg, positional args w = (Raise (Exception c msg), w)).
Proof.
  unfold positional, py_int. run_monad.
  destruct args as [|t [|m rest]]; eauto.
  destruct (PyStr.int m); eauto.
Qed.

(** C8 (amended): the process exits with status 0 whenever [main] gets as
    far as the first call of a collaborator, whether the task then succeeds
    or fails; status 1 is the exit of an exception that leaves [main] before
    any session, agent or API work (a [max_steps] or [BROWSER_PORT] that is
    no integer, no usable credentials), and [sys.exit(1)] is never reached. *)
Theorem main_exit_status (argv : list string) (w : World) :
  exit_status (fst (main env argv w)) = 0%Z \/
  (exit_status (fst (main env argv w)) = 1%Z /\
   events (snd (main env argv w)) = events w /\
   exists c msg, fst (main env argv w) = Raise (Exception c msg)).
Proof.
  remember (main env argv w) as run eqn:E. unfold main in E.
  destruct (List.length argv <? 2); [subst run; now left|].
  destruct (List.length (cleaned_args (strip_flags (tl argv))) <? 1);
    [subst run; now left|].
  unfold bind at 1 in E.
  destruct (positional_cases (resplit (cleaned_args (strip_flags (tl argv)))) w)
    as [(r & Hp)|(c & msg & Hp)]; rewrite Hp in E.
  2: { subst run. right. cbn. eauto. }
  destruct (use_api (strip_flags (tl argv))).
  - destruct (init_cases true (no_highlighting (strip_flags (tl argv))) w)
      as [(w1 & Hinit)|(c & msg & w1 & Hinit & Hev)].
    + destruct (main_api_returns r _ w w1 Hinit) as (w' & Hm & _).
      rewrite Hm in E. subst run. now left.
    + unfold main_api in E. unfold bind at 1 in E. rewrite Hinit in E.
      subst run. right. cbn. eauto.
  - destruct (init_cases false (no_highlighting (strip_flags (tl argv))) w)
      as [(w1 & Hinit)|(c & msg & w1 & Hinit & Hev)].
    + destruct (main_local_returns r _ w w1 Hinit) as (w' & Hm).
      rewrite Hm in E. subst run. now left.
    + unfold main_local in E. unfold bind at 1 in E. rewrite Hinit in E.
      subst run. right. cbn. eauto.
Qed.

End Process.


(** C2 (the code at the failing input): a local run on a freshly built
    agent, whose usage history is empty when the baseline is taken.  The run
    appends one record of 10 + 5 tokens, and the result reports
    [total_tokens] 0 and [total_cost] 0. *)
Theorem fresh_agent_usage_reported_zero :
  let env := sample_env azure_vars true true 200%Z [] in
  let w' := snd (main env [script; "go to youtube"] world0) in
  (exists a, agent (self w') = Some a /\
             token_cost_service a = Some {| usage_history := [sample_entry] |})
  /\ sum_tokens [sample_entry] = 15%Z
  /\ exists doc,
       printed (events w') = [doc] /\
       field "success" doc = Some (JBool true) /\
       field "token_usage" doc
       = Some (JDict [ ("total_tokens", JInt 0); ("total_cost", JFloat 0);
                       ("model", JStr "azure") ]).
Proof.
  cbv zeta. split; [|split].
  - eexists. split; vm_compute; reflexivity.
  - reflexivity.
  - eexists. split; [vm_compute; reflexivity|]. split; reflexivity.
Qed.

(** C4 (the code at the failing input): a RemoteAPI run whose submission
    returns the task id [t1] polls the status endpoint twice. *)
Theorem status_polled_twice :
  let env := sample_env [] true true 200%Z [] in
  let w' := snd (main env [script; "go to youtube"; "--api"] world0) in
  events w'
  = [ EvPost SessionsCreate (JDict []);
      EvPost BrowserUseExecute
        (execute_payload (JStr "s1") "go to youtube" 10);
      EvGet (BrowserUseStatus (JStr "t1"));
      EvGet (BrowserUseStatus (JStr "t1"));
      EvPrintJson (JDict [("taskId", JStr "t1"); ("liveUrl", JStr "/live/s1")]) ]
  /\ count is_status_get (events w') = 2.
Proof. cbv zeta. split; vm_compute; reflexivity. Qed.

(** ** Counterexamples and witnesses *)

(** C3 as stated fails: session creation answers 500 and no document with
    [success] false is printed (no document at all). *)
Lemma session_creation_500_prints_no_result :
  let env := sample_env [] true true 500%Z [] in
  let w' := snd (main env [script; "go to youtube"; "--api"] world0) in
  creation_failed (on_post env [EvPost SessionsCreate (JDict [])]) /\
  ~ (exists doc, In doc (printed (events w')) /\ reports_failure doc = true).
Proof.
  cbv zeta. split.
  - cbn. discriminate.
  - intros (doc & Hin & _). vm_compute in Hin. exact Hin.
Qed.

Lemma session_creation_failure_stops_witness :
  let env := sample_env [] true true 500%Z [] in
  main env [script; "go to youtube"; "--api"] world0
  = (Val tt,
     {| self := self (snd (init env true false world0));
        events := [EvPost SessionsCreate (JDict [])] |}).
Proof.
  intros env.
  apply (session_creation_failure_stops env [script; "go to youtube"; "--api"]
           {| task := "go to youtube"; max_steps := 10;
              session_id := None; browser_context_id := None |}
           world0 (snd (init env true false world0))).
  - split; [cbn; lia | split; [vm_compute; lia | intros w; reflexivity]].
  - reflexivity.
  - reflexivity.
  - cbn. discriminate.
Defined.

(** C8 as stated fails: the agent's run raises, the result document reports
    the failure, and the exit status is 0; so it is after a RemoteAPI run
    whose session creation answers 500. *)
Lemma failed_task_exits_zero :
  let env := sample_env azure_vars true false 200%Z [] in
  let run := main env [script; "go to youtube"] world0 in
  let remote :=
    main (sample_env [] true true 500%Z [])
      [script; "go to youtube"; "--api"] world0 in
  (exists doc, printed (events (snd run)) = [doc] /\
               reports_failure doc = true /\
               field "error" doc = Some (JStr "browser crashed")) /\
  exit_status (fst run) = 0%Z /\ exit_status (fst run) <> 1%Z /\
  exit_status (fst remote) = 0%Z.
Proof.
  cbv zeta. split; [|split; [|split]].
  - eexists. split; [vm_compute; reflexivity|]. split; reflexivity.
  - vm_compute. reflexivity.
  - vm_compute. discriminate.
  - vm_compute. reflexivity.
Qed.

Lemma api_mode_defers_llm_witness :
  llm (self (snd (main (sample_env [] true true 200%Z [])
                    [script; "go to youtube"; "--api"] world0))) = None
  /\
  exists w',
    main (sample_env [] true true 200%Z [])
      [script; "go to youtube"; "--api"] world0 = (Val tt, w') /\
    llm (self w') = None /\
    count is_session_post (events w')
    = S (count is_session_post (events world0)).
Proof.
  assert (Hparsed : parsed [script; "go to youtube"; "--api"]
                      {| task := "go to youtube"; max_steps := 10;
                         session_id := None; browser_context_id := None |}).
  { split; [cbn; lia | split; [vm_compute; lia | intros w; reflexivity]]. }
  destruct (api_mode_defers_llm (sample_env [] true true 200%Z [])
              [script; "go to youtube"; "--api"] _ world0 Hparsed eq_refl)
    as [H1 H2].
  split; [exact (H1 eq_refl) | exact (H2 9222%Z eq_refl)].
Defined.

Lemma execute_task_never_raises_witness :
  let env := sample_env azure_vars true false 200%Z [] in
  exists d w',
    execute_task env "go to youtube" None 10 world0 = (Val d, w') /\
    field "success" d = Some (JBool false) /\
    field "error" d = Some (JStr "browser crashed").
Proof.
  intros env.
  destruct (execute_task_never_raises env "go to youtube" None 10 world0)
    as (d & w' & Hexec & Herr).
  exists d, w'. split; [exact Hexec|].
  destruct (Herr (OtherException "RuntimeError") "browser crashed"
              (snd (execute_task_try env "go to youtube" None 10 world0))
              eq_refl) as (_ & _ & Hs & He).
  split; assumption.
Defined.

Lemma execute_task_result_shape_witness :
  let env := sample_env azure_vars true true 200%Z [] in
  exists items b w',
    execute_task env "go to youtube" None 10 world0 = (Val (JDict items), w') /\
    lookup "success" items = Some (JBool b) /\
    (b = true ->
     (exists s, lookup "final_result" items = Some (JStr s)) /\
     lookup "error" items = None) /\
    (b = false ->
     (exists s, lookup "error" items = Some (JStr s)) /\
     lookup "final_result" items = None).
Proof.
  intros env.
  exact (execute_task_result_shape env "go to youtube" None 10 world0).
Defined.

(** * Further properties of the script *)

(** ** Tokens and flags *)

Section Tokens.
Import PyStr PyStrFacts.

Lemma replace_char a b l :
  replace_l [a] [b] 0 l = map (fun c => if Ascii.eqb a c then b else c) l.
Proof.
  induction l as [|c l IH]; [reflexivity|].
  cbn [replace_l prefix_l map List.length Nat.sub app].
  rewrite andb_true_r. destruct (Ascii.eqb a c); now rewrite IH.
Qed.

Lemma lstrip_In c l : In c (lstrip_l l) -> In c l.
Proof.
  destruct (lstrip_suffix l) as [p Hp]. intros H. rewrite Hp.
  apply in_or_app. now right.
Qed.

Lemma strip_In c l : In c (strip_l l) -> In c l.
Proof.
  unfold strip_l. intros H. apply lstrip_In.
  destruct (rstrip_prefix (lstrip_l l)) as [q Hq]. rewrite Hq.
  apply in_or_app. now left.
Qed.

Lemma lstrip_id l :
  (forall c t, l = c :: t -> isspace c = false) -> lstrip_l l = l.
Proof.
  destruct l as [|c l]; [reflexivity|]. intros H. cbn [lstrip_l].
  now rewrite (H c l eq_refl).
Qed.

Lemma strip_l_id l : trimmed_l l -> strip_l l = l.
Proof.
  intros [Hhd Hlast]. unfold strip_l. rewrite (lstrip_id l Hhd).
  unfold rstrip_l. rewrite lstrip_id; [apply rev_involutive|].
  intros c t Hrev. apply (Hlast c (rev t)).
  rewrite <- (rev_involutive l), Hrev. reflexivity.
Qed.

Lemma map_id_on {A} (f : A -> A) l : (forall x, In x l -> f x = x) -> map f l = l.
Proof.
  induction l as [|x l IH]; intros H; [reflexivity|]. cbn [map].
  rewrite (H x (or_introl eq_refl)), IH; [reflexivity|].
  intros y Hy. apply H. now right.
Qed.

Lemma sanitize_chars token :
  chars (_sanitize_token token)
  = strip_l (map (fun c => if Ascii.eqb nbsp c then space else c)
               (chars token)).
Proof.
  unfold _sanitize_token, strip, replace. rewrite !chars_str.
  change (chars (String nbsp "")) with [nbsp].
  change (chars (String space "")) with [space].
  now rewrite replace_char.
Qed.

(** X1: a sanitized token holds no non-breaking space and neither starts
    nor ends with whitespace, and sanitizing it again changes nothing. *)
Theorem sanitize_token_clean (token : string) :
  ~ In nbsp (chars (_sanitize_token token)) /\
  trimmed (_sanitize_token token) /\
  _sanitize_token (_sanitize_token token) = _sanitize_token token.
Proof.
  assert (Hno : ~ In nbsp (chars (_sanitize_token token))).
  { rewrite sanitize_chars. intros H. apply strip_In in H.
    apply in_map_iff in H as (c & Hc & _).
    destruct (Ascii.eqb nbsp c) eqn:E; [discriminate|].
    apply Ascii.eqb_neq in E. congruence. }
  split; [exact Hno|]. split; [apply sanitize_trimmed|].
  rewrite <- (str_chars (_sanitize_token (_sanitize_token token))).
  rewrite <- (str_chars (_sanitize_token token)) at 2. f_equal.
  rewrite sanitize_chars, map_id_on.
  - apply strip_l_id, sanitize_trimmed.
  - intros c Hc. destruct (Ascii.eqb nbsp c) eqn:E; [|reflexivity].
    apply Ascii.eqb_eq in E. subst c. contradiction.
Qed.

End Tokens.

Section FlagLoop.

Lemma highlighting_step_merge st st' token :
  highlighting_step (merge_flags st st') token
  = merge_flags st (highlighting_step st' token).
Proof.
  unfold highlighting_step, merge_flags, set_no_highlighting, append_arg.
  destruct (PyStr.contains "--disable-highlighting" token);
    [destruct (negb _)|]; cbn [use_api no_highlighting cleaned_args];
    rewrite ?orb_true_r, ?app_assoc; reflexivity.
Qed.

Lemma flag_step_merge st st' token :
  flag_step (merge_flags st st') token = merge_flags st (flag_step st' token).
Proof.
  unfold flag_step.
  assert (Hset : set_use_api (merge_flags st st')
                 = merge_flags st (set_use_api st')).
  { unfold set_use_api, merge_flags. cbn [use_api no_highlighting cleaned_args].
    now rewrite orb_true_r. }
  destruct (PyStr.contains "--api" token); [destruct (negb _)|];
    rewrite ?Hset; auto using highlighting_step_merge.
Qed.

Lemma fold_flag_step_merge tokens st st' :
  fold_left flag_step tokens (merge_flags st st')
  = merge_flags st (fold_left flag_step tokens st').
Proof.
  revert st'. induction tokens as [|t ts IH]; intros st'; [reflexivity|].
  cbn [fold_left]. now rewrite flag_step_merge, IH.
Qed.

Lemma merge_flags_no_flags st : merge_flags st no_flags = st.
Proof.
  destruct st. unfold merge_flags, no_flags.
  cbn [use_api no_highlighting cleaned_args].
  now rewrite !orb_false_r, app_nil_r.
Qed.

Lemma strip_flags_concat raw1 raw2 :
  strip_flags (raw1 ++ raw2)
  = merge_flags (strip_flags raw1) (strip_flags raw2).
Proof.
  unfold strip_flags. fold no_flags. rewrite map_app, fold_left_app.
  rewrite <- fold_flag_step_merge. now rewrite merge_flags_no_flags.
Qed.

(** X2: the flag loop works token by token: the arguments kept from a
    command line are those kept from its first part followed by those kept
    from the rest, and a flag found in either part is set. *)
Theorem strip_flags_app (raw1 raw2 : list string) :
  cleaned_args (strip_flags (raw1 ++ raw2))
  = cleaned_args (strip_flags raw1) ++ cleaned_args (strip_flags raw2) /\
  use_api (strip_flags (raw1 ++ raw2))
  = use_api (strip_flags raw1) || use_api (strip_flags raw2) /\
  no_highlighting (strip_flags (raw1 ++ raw2))
  = no_highlighting (strip_flags raw1) || no_highlighting (strip_flags raw2).
Proof. rewrite strip_flags_concat. repeat split. Qed.

Lemma use_api_highlighting_step st token :
  use_api (highlighting_step st token) = use_api st.
Proof.
  unfold highlighting_step.
  destruct (PyStr.contains "--disable-highlighting" token);
    [destruct (negb _)|]; reflexivity.
Qed.

Lemma use_api_flag_step st token :
  use_api (flag_step st token) = use_api st || PyStr.contains "--api" token.
Proof.
  unfold flag_step. destruct (PyStr.contains "--api" token).
  - destruct (negb _); rewrite ?use_api_highlighting_step;
      cbn [set_use_api use_api]; now rewrite orb_true_r.
  - now rewrite use_api_highlighting_step, orb_false_r.
Qed.

(** X3: the remote path is selected exactly when some sanitized argument
    contains [--api], wherever in the token it stands. *)
Theorem use_api_detected (raw_args : list string) :
  use_api (strip_flags raw_args)
  = existsb (fun t => PyStr.contains "--api" (_sanitize_token t)) raw_args.
Proof.
  unfold strip_flags.
  assert (H : forall tokens st,
             use_api (fold_left flag_step tokens st)
             = use_api st || existsb (PyStr.contains "--api") tokens).
  { induction tokens as [|t ts IH]; intros st; cbn [fold_left existsb].
    - now rewrite orb_false_r.
    - now rewrite IH, use_api_flag_step, orb_assoc. }
  rewrite H. cbn [use_api orb].
  induction raw_args as [|t ts IH]; cbn [map existsb]; [reflexivity|].
  now rewrite IH.
Qed.

(** X4: arguments that contain neither flag go through the loop unchanged
    but for the sanitizing, and no flag is set. *)
Theorem strip_flags_without_flags (raw_args : list string) :
  (forall t, In t raw_args ->
     PyStr.contains "--api" (_sanitize_token t) = false /\
     PyStr.contains "--disable-highlighting" (_sanitize_token t) = false) ->
  strip_flags raw_args
  = {| use_api := false; no_highlighting := false;
       cleaned_args := map _sanitize_token raw_args |}.
Proof.
  induction raw_args as [|t ts IH] using rev_ind; intros H; [reflexivity|].
  rewrite strip_flags_concat, IH
    by (intros t' Ht'; apply H, in_or_app; now left).
  destruct (H t) as [Hapi Hhl]; [apply in_or_app; right; now left|].
  unfold strip_flags. cbn [map fold_left].
  unfold flag_step, highlighting_step. rewrite Hapi, Hhl.
  unfold merge_flags, append_arg. cbn [use_api no_highlighting cleaned_args app].
  now rewrite map_app.
Qed.

Lemma length_highlighting_step st token :
  List.length (cleaned_args (highlighting_step st token))
  <= S (List.length (cleaned_args st)).
Proof.
  unfold highlighting_step.
  destruct (PyStr.contains "--disable-highlighting" token);
    [destruct (negb _)|]; cbn [cleaned_args set_no_highlighting append_arg];
    rewrite ?length_app; cbn [List.length]; lia.
Qed.

Lemma length_flag_step st token :
  List.length (cleaned_args (flag_step st token))
  <= S (List.length (cleaned_args st)).
Proof.
  unfold flag_step. destruct (PyStr.contains "--api" token).
  - destruct (negb _); [cbn [set_use_api cleaned_args]; lia|].
    exact (length_highlighting_step (set_use_api st) _).
  - apply length_highlighting_step.
Qed.

(** X5: the loop never adds arguments: at most as many are kept as were
    given, each of them trimmed. *)
Theorem cleaned_args_bounded (raw_args : list string) :
  List.length (cleaned_args (strip_flags raw_args)) <= List.length raw_args /\
  Forall PyStr.trimmed (cleaned_args (strip_flags raw_args)).
Proof.
  split; [|apply strip_flags_trimmed].
  induction raw_args as [|t ts IH] using rev_ind; [cbn; lia|].
  rewrite strip_flags_concat, length_app. cbn [merge_flags cleaned_args].
  rewrite length_app.
  assert (List.length (cleaned_args (strip_flags [t])) <= 1).
  { unfold strip_flags. cbn [map fold_left].
    apply (length_flag_step no_flags). }
  cbn [List.length]. lia.
Qed.

Lemma strip_flags_bare token :
  bare_flag token -> cleaned_args (strip_flags [token]) = [].
Proof.
  unfold strip_flags. cbn [map fold_left]. intros [H|H]; rewrite H; reflexivity.
Qed.

(** X6: a command line made of flags alone gives no task, and [main]
    returns at once: no agent object, no call, nothing printed, with
    [--api] too. *)
Theorem flags_alone_do_nothing
    (env : Env) (name : string) (raw_args : list string) (w : World) :
  (forall t, In t raw_args -> bare_flag t) ->
  cleaned_args (strip_flags raw_args) = [] /\
  main env (name :: raw_args) w = (Val tt, w).
Proof.
  intros H.
  assert (Hnone : cleaned_args (strip_flags raw_args) = []).
  { induction raw_args as [|t ts IH] using rev_ind; [reflexivity|].
    rewrite strip_flags_concat. cbn [merge_flags cleaned_args].
    rewrite IH by (intros t' Ht'; apply H, in_or_app; now left).
    apply strip_flags_bare, H, in_or_app. right. now left. }
  split; [exact Hnone|].
  unfold main. cbn [tl]. rewrite Hnone.
  destruct (List.length (name :: raw_args) <? 2); reflexivity.
Qed.

End FlagLoop.

Lemma strip_flags_without_flags_witness :
  strip_flags ["go to youtube"; "15"]
  = {| use_api := false; no_highlighting := false;
       cleaned_args := map _sanitize_token ["go to youtube"; "15"] |}.
Proof.
  apply strip_flags_without_flags.
  intros t [<-|[<-|[]]]; split; reflexivity.
Defined.

Lemma flags_alone_do_nothing_witness :
  cleaned_args (strip_flags ["--api"; " --disable-highlighting "]) = [] /\
  main (sample_env [] true true 200%Z [])
    [script; "--api"; " --disable-highlighting "] world0 = (Val tt, world0).
Proof.
  apply flags_alone_do_nothing.
  intros t [<-|[<-|[]]]; [left | right]; reflexivity.
Defined.

(** ** What session acquisition leaves as it is *)

Section Acquired.
Variable env : Env.
Context {X : Type} (f : World -> X).

(** The observation [f] sees neither the events of acquisition nor the
    agent stored in [self] nor the patch of the highlighting. *)
Hypothesis f_event :
  forall w ev, acquisition_event ev = true ->
    f {| self := self w; events := events w ++ [ev] |} = f w.
Hypothesis f_agent :
  forall w a, f {| self := set_agent a (self w); events := events w |} = f w.
Hypothesis f_patch :
  forall w b,
    f {| self := set_highlighting_patched b (self w); events := events w |}
    = f w.

Lemma preserves_acquisition_call {A} ev (oracle : list event -> answer A) :
  acquisition_event ev = true -> preserves f (call ev oracle).
Proof. intros Hev w. apply f_event, Hev. Qed.

Lemma preserves_patch_highlighting : preserves f (patch_highlighting env).
Proof.
  intros w. unfold patch_highlighting. run_monad.
  destruct (on_import_highlights env _) as [[]|[] msg]; cbn [snd];
    try (now apply f_event).
  exact (eq_trans
           (f_patch {| self := self w;
                       events := events w ++ [EvImportHighlights] |} true)
           (f_event w EvImportHighlights eq_refl)).
Qed.

Lemma preserves_create_agent_try task hint ms :
  preserves f (create_agent_try env task hint ms).
Proof.
  unfold create_agent_try.
  repeat first
    [ apply preserves_patch_highlighting
    | apply preserves_acquisition_call; reflexivity
    | intros w; apply f_agent
    | preserves_step ].
Qed.

Lemma preserves_create_agent task hint ms :
  preserves f (create_agent env task hint ms).
Proof.
  intros w. rewrite create_agent_closed.
  pose proof (preserves_create_agent_try task hint ms w) as H1.
  destruct (create_agent_try env task hint ms w) as [[a|[c msg|code]] w1];
    cbn [snd] in *; try exact H1.
  destruct (opt_truthy hint); [|exact H1].
  now rewrite (preserves_create_agent_try task (Some "") ms w1).
Qed.

(** As above when [f] does not see the run of the agent either. *)
Hypothesis f_run :
  forall w, f {| self := self w; events := events w ++ [EvRun] |} = f w.

Lemma preserves_run a : preserves f (run env a).
Proof.
  intros w. unfold run.
  destruct (snd (on_run env _)); cbn [snd];
    rewrite (f_agent {| self := self w; events := events w ++ [EvRun] |});
    apply f_run.
Qed.

Lemma preserves_execute_task_try task hint ms :
  preserves f (execute_task_try env task hint ms).
Proof.
  unfold execute_task_try.
  repeat first [apply preserves_create_agent | apply preserves_run
               | preserves_step].
Qed.

Lemma preserves_execute_task task hint ms :
  preserves f (execute_task env task hint ms).
Proof.
  unfold execute_task.
  repeat first [apply preserves_execute_task_try | preserves_step].
Qed.

End Acquired.

(** ** The agent that acquisition returns *)

(** A sequence that returns a value went through each of its parts. *)
Lemma bind_val {A B} (m : M A) (k : A -> M B) w b w' :
  bind m k w = (Val b, w') ->
  exists a w1, m w = (Val a, w1) /\ k a w1 = (Val b, w').
Proof.
  unfold bind. destruct (m w) as [[a|e] w1]; [eauto | discriminate].
Qed.

Section Returned.
Variable env : Env.

Lemma create_agent_try_val task hint ms w a w' :
  create_agent_try env task hint ms w = (Val a, w') ->
  agent (self w') = Some a /\
  agent_task a = task /\ agent_max_steps a = ms /\
  agent_llm a = llm (self w) /\
  agent_browser_session a
  = match hint with
    | Some endpoint =>
        if PyStr.truthy endpoint && PyStr.startswith "ws://" endpoint
        then Some {| cdp_url := endpoint; is_local := false |} else None
    | None => None
    end.
Proof.
  unfold create_agent_try. intros H.
  apply bind_val in H as (session & w1 & Hsession & H).
  apply bind_val in H as (s & w2 & Hs & H).
  unfold get_self in Hs. injection Hs as <- <-.
  apply bind_val in H as (built & w3 & Hbuilt & H).
  pose proof (self_call (EvAgent task (llm (self w1)) ms session)
                (on_Agent env) w1) as Hself3.
  rewrite Hbuilt in Hself3. cbn [snd] in Hself3. cbn zeta in H.
  apply bind_val in H as ([] & w4 & Hset & H).
  unfold modify_self in Hset. injection Hset as <-.
  apply bind_val in H as ([] & w5 & Hpatch & H).
  apply bind_val in H as ([] & w6 & Hinit & H).
  unfold ret in H. injection H as <- <-.
  assert (Hagent5 : agent (self w5) = agent (self
            {| self := set_agent (Some
                 {| agent_task := task; agent_llm := llm (self w1);
                    agent_max_steps := ms; agent_browser_session := session;
                    token_cost_service := fst built; browser := snd built |})
               (self w3); events := events w3 |})).
  { destruct (disable_highlighting (self w1)).
    - match type of Hpatch with
      | patch_highlighting _ ?w0 = _ =>
          pose proof (preserves_patch_highlighting env
                        (fun w => agent (self w))
                        (fun _ _ _ => eq_refl) (fun _ _ => eq_refl) w0) as Hp
      end.
      cbn beta in Hp. now rewrite Hpatch in Hp.
    - unfold ret in Hpatch. now injection Hpatch as <-. }
  assert (Hagent6 : agent (self w6) = agent (self w5)).
  { cbn [token_cost_service] in Hinit. destruct (fst built).
    - pose proof (self_call EvInitialize (on_initialize env) w5) as Hp.
      rewrite Hinit in Hp. cbn [snd] in Hp. now rewrite Hp.
    - unfold ret in Hinit. now injection Hinit as <-. }
  assert (Hsess : self w1 = self w /\
            session = match hint with
                      | Some endpoint =>
                          if PyStr.truthy endpoint
                             && PyStr.startswith "ws://" endpoint
                          then Some {| cdp_url := endpoint; is_local := false |}
                          else None
                      | None => None
                      end).
  { destruct hint as [endpoint|];
      [destruct (PyStr.truthy endpoint && PyStr.startswith "ws://" endpoint)|].
    - apply bind_val in Hsession as ([] & w0 & Hcall & Hret).
      pose proof (self_call (EvBrowserSession endpoint)
                    (on_BrowserSession env) w) as Hp.
      rewrite Hcall in Hp. cbn [snd] in Hp.
      unfold ret in Hret. injection Hret as <- <-. auto.
    - unfold ret in Hsession. injection Hsession as <- <-. auto.
    - unfold ret in Hsession. injection Hsession as <- <-. auto. }
  destruct Hsess as [Hself1 Hsess].
  rewrite Hagent6, Hagent5. cbn [self agent set_agent agent_task
    agent_max_steps agent_llm agent_browser_session].
  rewrite Hself1. repeat split. exact Hsess.
Qed.

(** X7: the agent [create_agent] returns is the one stored in [self.agent];
    it carries the task, the step limit and the LLM of the instance; it is
    bound to a remote session only when the hint starts with [ws://] and the
    first attempt succeeded, and to none after a fallback. *)
Theorem create_agent_returns_self_agent
    (task : string) (hint : option string) (ms : Z) (w w' : World) (a : Agent) :
  create_agent env task hint ms w = (Val a, w') ->
  agent (self w') = Some a /\
  agent_task a = task /\ agent_max_steps a = ms /\
  agent_llm a = llm (self w) /\
  (agent_browser_session a = None \/
   exists endpoint,
     hint = Some endpoint /\ PyStr.startswith "ws://" endpoint = true /\
     agent_browser_session a = Some {| cdp_url := endpoint; is_local := false |}
     /\ create_agent_try env task hint ms w = (Val a, w')).
Proof.
  rewrite create_agent_closed.
  pose proof (preserves_create_agent_try env (fun w => llm (self w))
                (fun _ _ _ => eq_refl) (fun _ _ => eq_refl)
                (fun _ _ => eq_refl) task hint ms w) as Hllm.
  destruct (create_agent_try env task hint ms w) as [[a1|[c msg|code]] w1] eqn:E;
    cbn [snd] in Hllm.
  - intros H. injection H as <- <-.
    destruct (create_agent_try_val _ _ _ _ _ _ E) as (Hs & Ht & Hm & Hl & Hb).
    repeat split; try assumption.
    destruct hint as [endpoint|]; [|now left].
    destruct (PyStr.truthy endpoint && PyStr.startswith "ws://" endpoint) eqn:Hws;
      [|now left].
    right. exists endpoint. apply andb_true_iff in Hws as [_ Hws]. auto.
  - destruct (opt_truthy hint); [|discriminate].
    intros H.
    destruct (create_agent_try_val _ _ _ _ _ _ H) as (Hs & Ht & Hm & Hl & Hb).
    repeat split; try assumption; [congruence | now left].
  - discriminate.
Qed.

End Returned.

Lemma create_agent_returns_self_agent_witness :
  let env := sample_env azure_vars false true 200%Z [] in
  let res := create_agent env "go to youtube" (Some "ws://bad-host/x") 10 world0 in
  exists a,
    fst res = Val a /\ agent (self (snd res)) = Some a /\
    agent_task a = "go to youtube" /\ agent_max_steps a = 10%Z /\
    agent_browser_session a = None.
Proof.
  intros env res.
  destruct (create_agent_returns_self_agent env "go to youtube"
              (Some "ws://bad-host/x") 10 world0 (snd res)
              {| agent_task := "go to youtube"; agent_llm := None;
                 agent_max_steps := 10; agent_browser_session := None;
                 token_cost_service := Some {| usage_history := [] |};
                 browser := true |} eq_refl)
    as (Hs & Ht & Hm & _ & _).
  eexists. split; [reflexivity|]. repeat split; assumption.
Defined.

(** ** Bounds on what a run calls *)

Section Bounds.
Context {A B : Type} (p : event -> bool).

Lemma at_most_keeps (m : M A) : keeps p m -> at_most p 0 m.
Proof. intros H w. rewrite (H w). lia. Qed.

Lemma at_most_weaken n n' (m : M A) : n <= n' -> at_most p n m -> at_most p n' m.
Proof. intros Hn H w. specialize (H w). lia. Qed.

Lemma at_most_call ev (oracle : list event -> answer A) :
  at_most p 1 (call ev oracle).
Proof.
  intros w. unfold call. cbn [snd events]. rewrite count_snoc.
  destruct (p ev); lia.
Qed.

Lemma at_most_bind n n' (m : M A) (k : A -> M B) :
  at_most p n m -> (forall a, at_most p n' (k a)) ->
  at_most p (n + n') (bind m k).
Proof.
  intros Hm Hk w. unfold bind. specialize (Hm w).
  destruct (m w) as [[a|e] w1]; cbn [snd] in *.
  - specialize (Hk a w1). lia.
  - lia.
Qed.

Lemma at_most_try_except n n' (body : M A) handler :
  at_most p n body -> (forall c msg, at_most p n' (handler c msg)) ->
  at_most p (n + n') (try_except body handler).
Proof.
  intros Hb Hh w. unfold try_except. specialize (Hb w).
  destruct (body w) as [[a|[c msg|code]] w1]; cbn [snd] in *; try lia.
  specialize (Hh c msg w1). lia.
Qed.

End Bounds.

Section Bounded.
Variable env : Env.

Lemma keeps_acquisition p task hint ms :
  (forall ev, acquisition_event ev = true -> p ev = false) ->
  keeps p (create_agent env task hint ms).
Proof.
  intros Hp. apply preserves_create_agent; try reflexivity.
  intros w ev Hev. cbn [events]. rewrite count_snoc, (Hp ev Hev). lia.
Qed.

Lemma keeps_patch p :
  p EvImportHighlights = false -> keeps p (patch_highlighting env).
Proof.
  intros Hp w. unfold patch_highlighting. run_monad.
  destruct (on_import_highlights env _) as [[]|[] msg]; cbn [snd events];
    rewrite count_snoc, Hp; lia.
Qed.

Lemma at_most_one_agent task hint ms :
  at_most is_agent 1 (create_agent_try env task hint ms).
Proof.
  unfold create_agent_try.
  apply (at_most_bind is_agent 0 1).
  { apply at_most_keeps. repeat preserves_step. }
  intros session. apply (at_most_bind is_agent 0 1).
  { apply at_most_keeps. apply preserves_get_self. }
  intros s. apply (at_most_bind is_agent 1 0); [apply at_most_call|].
  intros built. apply at_most_keeps. cbn zeta.
  repeat first [apply keeps_patch; reflexivity | preserves_step].
Qed.

(** X8: session acquisition never loops: one call of [create_agent] builds
    at most two agents and attaches to a remote browser at most once, and
    with no hint, or an empty one, at most one agent is built. *)
Theorem create_agent_bounded
    (task : string) (hint : option string) (ms : Z) (w : World) :
  let w' := snd (create_agent env task hint ms w) in
  count is_agent (events w') <= count is_agent (events w) + 2 /\
  attaches (events w') <= attaches (events w) + 1 /\
  (opt_truthy hint = false ->
   count is_agent (events w') <= count is_agent (events w) + 1).
Proof.
  cbv zeta. rewrite create_agent_closed.
  pose proof (at_most_one_agent task hint ms w) as H1.
  assert (Hcleared : keeps is_attach (create_agent_try env task (Some "") ms)).
  { apply keeps_create_agent_try_local. now left. }
  assert (Hattach : attaches (events (snd (create_agent_try env task hint ms w)))
                    <= attaches (events w) + 1).
  { destruct hint as [h|].
    - destruct (PyStr.startswith "ws://" h) eqn:Hws.
      + rewrite (attaches_create_agent_try_ws env task h ms w Hws). lia.
      + rewrite (keeps_create_agent_try_local env task (Some h) ms
                   (or_intror (ex_intro _ h (conj eq_refl Hws))) w
                 : attaches _ = attaches _). lia.
    - rewrite (keeps_create_agent_try_local env task None ms
                 (or_introl eq_refl) w : attaches _ = attaches _). lia. }
  destruct (create_agent_try env task hint ms w) as [[a|[c msg|code]] w1];
    cbn [snd] in *; try (repeat split; intros; lia).
  destruct (opt_truthy hint); cbn [snd]; [|repeat split; intros; lia].
  pose proof (at_most_one_agent task (Some "") ms w1) as H2.
  pose proof (Hcleared w1 : attaches _ = attaches _) as H3.
  repeat split; try discriminate; lia.
Qed.

(** X9: the result of [execute_task], success or failure, names the task
    it was given, the provider of the instance and the hint as the caller
    passed it, also when acquisition fell back to a local browser. *)
Theorem execute_task_echoes_request
    (task : string) (hint : option string) (ms : Z) (w : World) :
  exists d w',
    execute_task env task hint ms w = (Val d, w') /\
    field "task" d = Some (JStr task) /\
    field "browser_context_id" d = Some (json_of_opt hint) /\
    field "llm_provider" d = Some (JStr (llm_provider (settings (self w)))).
Proof.
  pose proof (preserves_execute_task_try env (fun w => settings (self w))
                (fun _ _ _ => eq_refl) (fun _ _ => eq_refl)
                (fun _ _ => eq_refl) (fun _ => eq_refl) task hint ms w)
    as Hsettings.
  destruct (execute_task_cases env task hint ms w)
    as [(d & w' & Htry & Hexec)|(c & msg & w' & Htry & Hexec)];
    rewrite Htry in Hsettings; cbn [snd] in Hsettings.
  - destruct (execute_task_try_val _ _ _ _ _ _ _ Htry) as (r & usage & ->).
    eexists _, w'. split; [exact Hexec|]. rewrite <- Hsettings.
    repeat split.
  - eexists _, w'. split; [exact Hexec|]. rewrite <- Hsettings.
    repeat split.
Qed.

Lemma at_most_one_run a : at_most is_run 1 (run env a).
Proof.
  intros w. unfold run.
  destruct (snd (on_run env _)); cbn [snd events]; rewrite count_snoc; cbn; lia.
Qed.

(** X10: [execute_task] only acquires a session and runs the agent, once at
    most: it makes no HTTP call, prints no document and does not close the
    browser. *)
Theorem execute_task_local_events
    (task : string) (hint : option string) (ms : Z) (w : World) :
  let w' := snd (execute_task env task hint ms w) in
  count (fun e => negb (local_event e)) (events w')
  = count (fun e => negb (local_event e)) (events w) /\
  count is_run (events w') <= count is_run (events w) + 1.
Proof.
  cbv zeta. split.
  - apply (preserves_execute_task env
             (fun w => count (fun e => negb (local_event e)) (events w)));
      try reflexivity.
    + intros w0 ev Hev. cbn [events]. rewrite count_snoc.
      unfold local_event. rewrite Hev. cbn. lia.
    + intros w0. cbn [events]. rewrite count_snoc. cbn. lia.
  - assert (H : at_most is_run 1 (execute_task env task hint ms)).
    { unfold execute_task.
      apply (at_most_try_except is_run 1 0).
      - unfold execute_task_try. apply (at_most_bind is_run 0 1).
        + apply at_most_keeps, keeps_acquisition.
          intros ev Hev. destruct ev; try discriminate; reflexivity.
        + intros a. apply (at_most_bind is_run 1 0); [apply at_most_one_run|].
          intros ran. apply at_most_keeps. repeat preserves_step.
      - intros c msg. apply at_most_keeps. repeat preserves_step. }
    apply H.
Qed.

Lemma cleanup_run w :
  cleanup env w
  = (Val tt,
     {| self := self w;
        events := events w ++
                  match agent (self w) with
                  | Some a => if browser a then [EvClose] else []
                  | None => []
                  end |}).
Proof.
  unfold cleanup, try_except. run_monad.
  destruct w as [s evs]. cbn [self events].
  destruct (agent s) as [a|]; [destruct (browser a)|]; run_monad;
    rewrite ?app_nil_r; try reflexivity.
  destruct (on_close env _) as [[]|c msg]; reflexivity.
Qed.

(** X11: [cleanup] always returns, whatever [close] answers: it leaves the
    instance as it is, closes the browser of the stored agent when there is
    one and calls nothing else. *)
Theorem cleanup_closes_quietly (w : World) :
  exists w',
    cleanup env w = (Val tt, w') /\ self w' = self w /\
    events w' = events w ++
                match agent (self w) with
                | Some a => if browser a then [EvClose] else []
                | None => []
                end.
Proof.
  rewrite cleanup_run. eexists. split; [reflexivity|]. split; reflexivity.
Qed.

Lemma printed_snoc l ev :
  printed (l ++ [ev])
  = printed l ++ match ev with EvPrintJson d => [d] | _ => [] end.
Proof. unfold printed. rewrite flat_map_app. cbn. now rewrite app_nil_r. Qed.

Lemma printed_app l1 l2 : printed (l1 ++ l2) = printed l1 ++ printed l2.
Proof. apply flat_map_app. Qed.

(** X12: a local run whose agent object could be built prints exactly one
    document, the result of [execute_task], whatever the outcome of the
    task, closes the browser afterwards and returns normally. *)
Theorem main_local_prints_once
    (r : TaskRequest) (no_hl : bool) (w w1 : World) :
  init env false no_hl w = (Val tt, w1) ->
  exists d w2,
    execute_task env (task r) (browser_context_id r) (max_steps r) w1
    = (Val d, w2) /\
    main_local env r no_hl w
    = (Val tt,
       {| self := self w2;
          events := events w2 ++ [EvPrintJson d] ++
                    match agent (self w2) with
                    | Some a => if browser a then [EvClose] else []
                    | None => []
                    end |}) /\
    printed (events (snd (main_local env r no_hl w)))
    = printed (events w) ++ [d].
Proof.
  intros Hinit.
  destruct (execute_task_total env (task r) (browser_context_id r)
              (max_steps r) w1) as (d & w2 & E).
  exists d, w2. split; [exact E|].
  assert (Hmain : main_local env r no_hl w
    = (Val tt,
       {| self := self w2;
          events := events w2 ++ [EvPrintJson d] ++
                    match agent (self w2) with
                    | Some a => if browser a then [EvClose] else []
                    | None => []
                    end |})).
  { unfold main_local. unfold bind at 1. rewrite Hinit.
    unfold try_finally, try_except, main_local_try. unfold bind at 1.
    rewrite E. unfold print_json. rewrite cleanup_run.
    cbn [self events]. now rewrite <- app_assoc. }
  split; [exact Hmain|]. rewrite Hmain. cbn [snd events].
  pose proof (preserves_execute_task env (fun w => printed (events w))) as Hp.
  specialize (Hp (fun w ev => ltac:(
    intros Hev; cbn [events]; rewrite printed_snoc;
    destruct ev; try discriminate; apply app_nil_r))).
  specialize (Hp (fun _ _ => eq_refl) (fun _ _ => eq_refl)).
  specialize (Hp (fun w => ltac:(cbn [events]; rewrite printed_snoc;
                                 apply app_nil_r))).
  specialize (Hp (task r) (browser_context_id r) (max_steps r) w1).
  rewrite E in Hp. cbn [snd] in Hp.
  pose proof (events_init env false no_hl w) as Hev.
  rewrite Hinit in Hev. cbn [snd] in Hev.
  rewrite !printed_app, Hp, Hev.
  destruct (agent (self w2)) as [a|]; [destruct (browser a)|]; reflexivity.
Qed.

End Bounded.

(** ** The stages of the remote path *)

Section Stages.
Variable env : Env.

(** X13: [create_session_via_api] makes one POST and always returns: the
    value of [sessionId] when the status is 200 and the body a JSON object,
    [None] in every other case (network error, other status, body that is
    no JSON or no object, key missing). *)
Theorem create_session_answer (w : World) :
  let h := events w ++ [EvPost SessionsCreate (JDict [])] in
  exists v,
    create_session_via_api env w = (Val v, {| self := self w; events := h |}) /\
    (v <> JNull ->
     exists r items,
       on_post env h = Returns r /\ status r = 200%Z /\
       body_json r = Returns (JDict items) /\
       lookup "sessionId" items = Some v) /\
    (forall r items sid,
       on_post env h = Returns r -> status r = 200%Z ->
       body_json r = Returns (JDict items) ->
       lookup "sessionId" items = Some sid -> v = sid).
Proof.
  cbv zeta. unfold create_session_via_api, try_except. run_monad.
  destruct (on_post env _) as [r|c msg] eqn:Hpost;
    [|exists JNull; repeat split; [congruence | discriminate]].
  destruct (Z.eqb_spec (status r) 200) as [Hst|Hst].
  2: { exists JNull. split; [destruct (body_text r); reflexivity|].
       split; [congruence|]. intros r' items sid Hr. injection Hr as <-.
       contradiction. }
  destruct (body_json r) as [body|c msg] eqn:Hbody;
    [|exists JNull; repeat split; [congruence|];
      intros r' items sid Hr _ Hb; injection Hr as <-; congruence].
  destruct body as [| | | | | |items];
    try (exists JNull; repeat split; [congruence|];
         intros r' items' sid Hr _ Hb; injection Hr as <-; congruence).
  cbn [py_get]. unfold ret.
  destruct (lookup "sessionId" items) as [v|] eqn:Hl.
  - exists v. split; [reflexivity|]. split.
    + intros _. exists r, items. auto.
    + intros r' items' sid Hr _ Hb Hs. injection Hr as <-.
      rewrite Hbody in Hb. injection Hb as <-. congruence.
  - exists JNull. split; [reflexivity|]. split; [congruence|].
    intros r' items' sid Hr _ Hb Hs. injection Hr as <-.
    rewrite Hbody in Hb. injection Hb as <-. congruence.
Qed.

(** X14: [execute_task_via_api] makes one POST, whose payload holds the
    session id, the task, the model [gpt-4.1] and the step limit, and always
    returns: the body when the status is 200 and the body a JSON object,
    [None] in every other case. *)
Theorem execute_via_api_answer
    (sid : json) (t : string) (ms : Z) (w : World) :
  let h := events w ++ [EvPost BrowserUseExecute (execute_payload sid t ms)] in
  exists v,
    execute_task_via_api env sid t ms w
    = (Val v, {| self := self w; events := h |}) /\
    (v <> JNull ->
     exists r items,
       on_post env h = Returns r /\ status r = 200%Z /\
       body_json r = Returns (JDict items) /\ v = JDict items) /\
    (forall r items,
       on_post env h = Returns r -> status r = 200%Z ->
       body_json r = Returns (JDict items) -> v = JDict items).
Proof.
  cbv zeta. unfold execute_task_via_api, try_except. run_monad.
  destruct (on_post env _) as [r|c msg] eqn:Hpost;
    [|exists JNull; repeat split; [congruence | discriminate]].
  destruct (Z.eqb_spec (status r) 200) as [Hst|Hst].
  2: { exists JNull. split; [destruct (body_text r); reflexivity|].
       split; [congruence|]. intros r' items Hr. injection Hr as <-.
       contradiction. }
  destruct (body_json r) as [body|c msg] eqn:Hbody;
    [|exists JNull; repeat split; [congruence|];
      intros r' items Hr _ Hb; injection Hr as <-; congruence].
  destruct body as [| | | | | |items];
    try (exists JNull; repeat split; [congruence|];
         intros r' items' Hr _ Hb; injection Hr as <-; congruence).
  exists (JDict items). split; [reflexivity|]. split.
  - intros _. exists r, items. auto.
  - intros r' items' Hr _ Hb. injection Hr as <-. congruence.
Qed.

(** X15: [monitor_task_progress] makes one GET of the status of the task
    and always returns: the body as it is when the status is 200 and the
    body is JSON, [None] in every other case. *)
Theorem monitor_answer (sid tid : json) (w : World) :
  let h := events w ++ [EvGet (BrowserUseStatus tid)] in
  exists v,
    monitor_task_progress env sid tid w
    = (Val v, {| self := self w; events := h |}) /\
    (v <> JNull ->
     exists r, on_get env h = Returns r /\ status r = 200%Z /\
               body_json r = Returns v) /\
    (forall r body,
       on_get env h = Returns r -> status r = 200%Z ->
       body_json r = Returns body -> v = body).
Proof.
  cbv zeta. unfold monitor_task_progress, try_except. run_monad.
  destruct (on_get env _) as [r|c msg] eqn:Hget;
    [|exists JNull; repeat split; [congruence | discriminate]].
  destruct (Z.eqb_spec (status r) 200) as [Hst|Hst].
  2: { exists JNull. split; [destruct (body_text r); reflexivity|].
       split; [congruence|]. intros r' body Hr. injection Hr as <-.
       contradiction. }
  destruct (body_json r) as [body|c msg] eqn:Hbody.
  - exists body. split; [reflexivity|]. split.
    + intros _. exists r. auto.
    + intros r' body' Hr _ Hb. injection Hr as <-. congruence.
  - exists JNull. split; [reflexivity|]. split; [congruence|].
    intros r' body' Hr _ Hb. injection Hr as <-. congruence.
Qed.

Lemma execute_via_api_failed sid t ms w :
  creation_failed
    (on_post env (events w ++
                  [EvPost BrowserUseExecute (execute_payload sid t ms)])) ->
  execute_task_via_api env sid t ms w
  = (Val JNull,
     {| self := self w;
        events := events w ++
                  [EvPost BrowserUseExecute (execute_payload sid t ms)] |}).
Proof.
  unfold execute_task_via_api, try_except, creation_failed. run_monad.
  destruct (on_post env _) as [r|c msg]; [|reflexivity].
  intros Hstatus. apply Z.eqb_neq in Hstatus. rewrite Hstatus.
  destruct (body_text r); reflexivity.
Qed.

Lemma execute_via_api_ok sid t ms w resp items :
  on_post env (events w ++
               [EvPost BrowserUseExecute (execute_payload sid t ms)])
  = Returns resp ->
  status resp = 200%Z -> body_json resp = Returns (JDict items) ->
  execute_task_via_api env sid t ms w
  = (Val (JDict items),
     {| self := self w;
        events := events w ++
                  [EvPost BrowserUseExecute (execute_payload sid t ms)] |}).
Proof.
  intros Hpost Hst Hbody.
  unfold execute_task_via_api, try_except. run_monad.
  rewrite Hpost, Hst, Hbody. reflexivity.
Qed.

(** X16: when the task submission raises or answers with a status other
    than 200, the remote run ends there: the status is never polled and
    nothing is printed. *)
Theorem submission_failure_stops
    (r : TaskRequest) (w w2 : World) (sid : json) :
  create_session_via_api env w = (Val sid, w2) ->
  json_truthy sid = true ->
  creation_failed
    (on_post env
       (events w2 ++
        [EvPost BrowserUseExecute
           (execute_payload sid (task r) (max_steps r))])) ->
  main_api_try env r w
  = (Val tt,
     {| self := self w2;
        events := events w2 ++
                  [EvPost BrowserUseExecute
                     (execute_payload sid (task r) (max_steps r))] |}).
Proof.
  intros Hcreate Hsid Hfail. unfold main_api_try. unfold bind at 1.
  rewrite Hcreate, Hsid. cbn [negb]. unfold bind at 1.
  now rewrite (execute_via_api_failed _ _ _ _ Hfail).
Qed.

(** X17: when the submission succeeds with an object that holds no task
    id (or a falsy one), the status is not polled, and the object is
    printed all the same as the result of the run. *)
Theorem missing_task_id_skips_poll
    (r : TaskRequest) (w w2 : World) (sid : json)
    (resp : HttpResponse) (items : list (string * json)) :
  create_session_via_api env w = (Val sid, w2) ->
  json_truthy sid = true ->
  on_post env
    (events w2 ++
     [EvPost BrowserUseExecute (execute_payload sid (task r) (max_steps r))])
  = Returns resp ->
  status resp = 200%Z ->
  body_json resp = Returns (JDict items) ->
  items <> [] ->
  json_truthy (match lookup "taskId" items with Some v => v | None => JNull end)
  = false ->
  main_api_try env r w
  = (Val tt,
     {| self := self w2;
        events := events w2 ++
                  [EvPost BrowserUseExecute
                     (execute_payload sid (task r) (max_steps r));
                   EvPrintJson (JDict items)] |}).
Proof.
  intros Hcreate Hsid Hpost Hst Hbody Hne Htid.
  unfold main_api_try. unfold bind at 1.
  rewrite Hcreate, Hsid. cbn [negb]. unfold bind at 1.
  rewrite (execute_via_api_ok _ _ _ _ _ _ Hpost Hst Hbody).
  assert (Htruthy : json_truthy (JDict items) = true)
    by (destruct items; [congruence | reflexivity]).
  rewrite Htruthy. cbn [negb py_get]. unfold bind, ret. rewrite Htid.
  unfold print_json. cbn [self events]. now rewrite <- app_assoc.
Qed.

Lemma keeps_main_api_try p r :
  (forall ev, remote_event ev = true -> p ev = false) ->
  keeps p (main_api_try env r).
Proof.
  intros Hp. unfold main_api_try.
  repeat first
    [ apply keeps_create_session; apply Hp; reflexivity
    | apply keeps_execute_via_api; apply Hp; reflexivity
    | apply keeps_monitor; apply Hp; reflexivity
    | apply keeps_print_json; apply Hp; reflexivity
    | preserves_step ].
Qed.

(** X18: a RemoteAPI run only makes HTTP calls and prints: it never
    builds a session or an agent, never runs or closes one, and the agent of
    the instance stays unset. *)
Theorem main_api_remote_only (r : TaskRequest) (no_hl : bool) (w : World) :
  let w' := snd (main_api env r no_hl w) in
  count (fun e => negb (remote_event e)) (events w')
  = count (fun e => negb (remote_event e)) (events w) /\
  (agent (self w) = None -> agent (self w') = None).
Proof.
  cbv zeta.
  assert (Hbody : keeps (fun e => negb (remote_event e))
                    (try_except (main_api_try env r) (fun _ _ => ret tt))).
  { apply preserves_try_except; [|intros c msg; apply preserves_ret].
    apply keeps_main_api_try. intros ev Hev. now rewrite Hev. }
  assert (Hself : preserves self
                    (try_except (main_api_try env r) (fun _ _ => ret tt))).
  { apply preserves_try_except; [apply self_main_api_try|].
    intros c msg. apply preserves_ret. }
  pose proof (events_init env true no_hl w) as Hev.
  unfold main_api. unfold bind.
  destruct (init_deferred_cases env no_hl w)
    as [(w1 & Hinit & _)|(c & msg & Hinit)]; rewrite Hinit in *;
    cbn [snd] in *.
  - rewrite (Hbody w1), (Hself w1), Hev. split; [reflexivity|]. intros _.
    revert Hinit. unfold init, load_environment, py_int.
    destruct (PyStr.int _); run_monad; intros H; inversion H. reflexivity.
  - auto.
Qed.

End Stages.

(** ** Start-up *)

Section Startup.
Variable env : Env.

(** X19: a resolved LLM is kept: [setup_llm] does nothing when the instance
    has one already, so calling it twice is the same as calling it once. *)
Theorem setup_llm_idempotent (w : World) :
  (llm (self w) <> None -> setup_llm w = (Val tt, w)) /\
  (setup_llm ;; setup_llm) w = setup_llm w.
Proof.
  assert (Hcached : forall w0, llm (self w0) <> None ->
                               setup_llm w0 = (Val tt, w0)).
  { intros w0 H. unfold setup_llm. run_monad.
    destruct (llm (self w0)); [reflexivity | congruence]. }
  split; [apply Hcached|]. unfold bind.
  destruct (llm (self w)) as [l|] eqn:Hllm.
  - rewrite (Hcached w) by congruence. apply Hcached. congruence.
  - rewrite (setup_llm_refines w Hllm).
    destruct (resolve_spec (settings (self w))); [|reflexivity].
    apply Hcached. cbn. discriminate.
Qed.

(** X20: only the preferred provider and Azure are ever considered: when
    the credentials of both are incomplete, resolution fails, also when
    another provider has a complete set. *)
Theorem other_providers_ignored (w : World) :
  llm (self w) = None ->
  complete Azure (settings (self w)) = false ->
  (forall p, preference (settings (self w)) = Some p ->
             complete p (settings (self w)) = false) ->
  setup_llm w = (Raise (Exception ValueError no_llm_message), w).
Proof.
  intros Hllm Hazure Hpref. rewrite (setup_llm_refines w Hllm).
  unfold resolve_spec.
  destruct (preference (settings (self w))) as [p|];
    [rewrite (Hpref p eq_refl)|]; now rewrite Hazure.
Qed.

(** X21: a [BROWSER_PORT] that [int()] refuses ends the run in either mode
    with the [ValueError] of [int()], its message included, before any call,
    although the port is never used. *)
Theorem bad_browser_port_is_fatal
    (argv : list string) (r : TaskRequest) (w : World) :
  parsed argv r ->
  PyStr.int (getenv_or env "BROWSER_PORT" "9222") = None ->
  main env argv w
  = (Raise (Exception ValueError
              (int_error (getenv_or env "BROWSER_PORT" "9222"))), w).
Proof.
  intros Hparsed Hport. rewrite (main_dispatch env argv r w Hparsed).
  assert (Hinit : forall defer no_hl,
            init env defer no_hl w
            = (Raise (Exception ValueError
                        (int_error (getenv_or env "BROWSER_PORT" "9222"))), w)).
  { intros defer no_hl. unfold init, load_environment, py_int.
    rewrite Hport. reflexivity. }
  destruct (use_api (strip_flags (tl argv)));
    [unfold main_api | unfold main_local]; unfold bind at 1;
    now rewrite Hinit.
Qed.

End Startup.

(** ** The key in the start-up listing *)

Section Masking.
Import PyStr PyStrFacts.

Lemma length_chars_str l : List.length (chars (str l)) = List.length l.
Proof. now rewrite chars_str. Qed.

Lemma mask_key_long value :
  14 < List.length (chars value) ->
  chars (mask_key value)
  = firstn 10 (chars value) ++ chars "..."
    ++ skipn (List.length (chars value) - 4) (chars value).
Proof.
  intros H. unfold mask_key. apply Nat.ltb_lt in H. rewrite H.
  apply chars_str.
Qed.

(** X22: what the start-up listing shows of the Azure key has at most 17
    characters, and of a key longer than 14 characters it depends on the
    first ten and the last four only. *)
Theorem api_key_masked :
  (forall env, List.length (chars (shown_api_key env)) <= 17) /\
  (forall head middle middle' tail,
     List.length (chars head) = 10 -> List.length (chars tail) = 4 ->
     middle <> "" -> middle' <> "" ->
     mask_key (head ++ middle ++ tail) = mask_key (head ++ middle' ++ tail)).
Proof.
  split.
  - intros env. unfold shown_api_key.
    destruct (getenv env "AZURE_OPENAI_API_KEY") as [value|]; [|cbn; lia].
    destruct (String.eqb_spec value "NOT_SET") as [->|_]; [cbn; lia|].
    unfold mask_key.
    destruct (Nat.ltb_spec 14 (List.length (chars value))); [|cbn; lia].
    rewrite chars_str, !length_app, length_firstn, length_skipn.
    change (List.length (chars "...")) with 3. lia.
  - intros head middle middle' tail Hh Ht Hm Hm'.
    assert (Hmask : forall m, m <> "" ->
              mask_key (head ++ m ++ tail)
              = str (chars head ++ chars "..." ++ chars tail)).
    { intros m Hne.
      assert (Hchars : chars (head ++ m ++ tail)
                       = chars head ++ chars m ++ chars tail).
      { rewrite <- (str_chars head), <- (str_chars m), <- (str_chars tail)
          at 1.
        now rewrite <- !str_app, chars_str. }
      assert (Hlen : 0 < List.length (chars m)).
      { destruct m; [congruence | cbn; lia]. }
      unfold mask_key. rewrite Hchars, !length_app.
      destruct (Nat.ltb_spec 14 (List.length (chars head)
                  + (List.length (chars m) + List.length (chars tail))));
        [|lia].
      f_equal. f_equal.
      - rewrite firstn_app, <- Hh, firstn_all.
        replace (List.length (chars head) - List.length (chars head)) with 0
          by lia.
        cbn [firstn]. apply app_nil_r.
      - f_equal. rewrite app_assoc, skipn_app.
        rewrite skipn_all2 by (rewrite length_app; lia).
        rewrite length_app.
        replace (List.length (chars head)
                 + (List.length (chars m) + List.length (chars tail)) - 4
                 - (List.length (chars head) + List.length (chars m)))
          with 0 by lia.
        reflexivity. }
    now rewrite (Hmask middle Hm), (Hmask middle' Hm').
Qed.

End Masking.

(** ** The totals of the usage loop *)

Section Totals.

Lemma sum_tokens_perm l l' : Permutation l l' -> sum_tokens l = sum_tokens l'.
Proof.
  unfold sum_tokens. induction 1; cbn [fold_right] in *; lia.
Qed.

Lemma priced_perm l l' :
  Permutation l l' -> forallb priced l = forallb priced l'.
Proof.
  induction 1; cbn [forallb].
  - reflexivity.
  - now rewrite IHPermutation.
  - destruct (priced x), (priced y); reflexivity.
  - now rewrite IHPermutation1.
Qed.

Lemma sum_tokens_app l l' :
  sum_tokens (l ++ l') = (sum_tokens l + sum_tokens l')%Z.
Proof.
  unfold sum_tokens. induction l as [|e l IH]; cbn [app fold_right]; lia.
Qed.

(** X23: the token total of the usage loop, and whether the loop ends or
    raises, do not depend on the order of the records, and the token totals
    of two runs of records add up; the cost total is a sum of floats, each
    addition rounded, and it does depend on the order of the records and
    does not add up. *)
Theorem usage_tokens_additive :
  (forall l l',
     Permutation l l' ->
     option_map fst (usage_loop l (0%Z, 0%float))
     = option_map fst (usage_loop l' (0%Z, 0%float)))
  /\
  (forall l l' u,
     usage_loop (l ++ l') (0%Z, 0%float) = Some u ->
     exists u1 u2,
       usage_loop l (0%Z, 0%float) = Some u1 /\
       usage_loop l' (0%Z, 0%float) = Some u2 /\
       fst u = (fst u1 + fst u2)%Z)
  /\
  (exists l l',
     Permutation l l' /\
     option_map snd (usage_loop l (0%Z, 0%float))
     <> option_map snd (usage_loop l' (0%Z, 0%float)))
  /\
  (exists l l' u u1 u2,
     usage_loop (l ++ l') (0%Z, 0%float) = Some u /\
     usage_loop l (0%Z, 0%float) = Some u1 /\
     usage_loop l' (0%Z, 0%float) = Some u2 /\
     snd u <> (snd u1 + snd u2)%float).
Proof.
  split; [|split; [|split]].
  - intros l l' Hperm. rewrite !usage_loop_tokens.
    now rewrite (priced_perm l l' Hperm), (sum_tokens_perm l l' Hperm).
  - intros l l' u Hu.
    pose proof (usage_loop_tokens (l ++ l') (0%Z, 0%float)) as Ht.
    rewrite Hu, forallb_app, sum_tokens_app in Ht. cbn [option_map fst] in Ht.
    pose proof (usage_loop_tokens l (0%Z, 0%float)) as Hl.
    pose proof (usage_loop_tokens l' (0%Z, 0%float)) as Hl'.
    destruct (forallb priced l); [|discriminate].
    destruct (forallb priced l'); [|discriminate].
    destruct (usage_loop l _) as [u1|]; [|discriminate].
    destruct (usage_loop l' _) as [u2|]; [|discriminate].
    cbn [option_map fst andb] in *.
    injection Ht as Ht. injection Hl as Hl. injection Hl' as Hl'.
    exists u1, u2. repeat split. lia.
  - exists [record 0 1; record 1 0; record 2 0],
           [record 0 1; record 2 0; record 1 0].
    split; [apply perm_skip, perm_swap|]. vm_compute. discriminate.
  - exists [record 1 0; record 1 0], [record 1 0; record 4 0].
    eexists _, _, _.
    split; [vm_compute; reflexivity|].
    split; [vm_compute; reflexivity|].
    split; [vm_compute; reflexivity|].
    vm_compute. discriminate.
Qed.

End Totals.

(** ** Further runs *)

(** A count out of the range of floats fails the task: the document of the
    run reports the [OverflowError] of the usage loop. *)
Example huge_count_fails_task :
  let env := with_records [record (2 ^ 1024) 0]
               (sample_env azure_vars true true 200%Z [other_entry]) in
  fst (execute_task env "go to youtube" None 10 world0)
  = Val (JDict [ ("success", JBool false); ("task", JStr "go to youtube");
                 ("error", JStr "int too large to convert to float");
                 ("llm_provider", JStr ""); ("browser_context_id", JNull) ]).
Proof. vm_compute. reflexivity. Qed.

(** The same three records in two orders: 0.0006
    (0x1.3a92a30553261p-11) and 0.0006000000000000001
    (0x1.3a92a30553262p-11). *)
Example cost_depends_on_order :
  sum_cost [record 0 1; record 1 0; record 2 0]
  = Some (S754_finite false 0x13a92a30553261 (-63)) /\
  sum_cost [record 0 1; record 2 0; record 1 0]
  = Some (S754_finite false 0x13a92a30553262 (-63)).
Proof. split; vm_compute; reflexivity. Qed.

(** A port that [strip()] would make an integer and [int()] refuses, and a
    port with too many digits. *)
Example refused_ports_are_fatal :
  main (sample_env (("BROWSER_PORT", fs "9222") :: azure_vars)
          true true 200%Z [])
       [script; "go to youtube"; "--api"] world0
  = (Raise (Exception ValueError
              "invalid literal for int() with base 10: '\x1c9222'"), world0)
  /\
  main (sample_env (("BROWSER_PORT", digits "9" 4301) :: azure_vars)
          true true 200%Z [])
       [script; "go to youtube"] world0
  = (Raise (Exception ValueError
              "Exceeds the limit (4300 digits) for integer string conversion: value has 4301 digits; use sys.set_int_max_str_digits() to increase the limit"),
     world0).
Proof. split; vm_compute; reflexivity. Qed.

(** ** Instances *)

Lemma sanitize_token_clean_witness :
  ~ In PyStr.nbsp (PyStr.chars (_sanitize_token "  go to youtube ")) /\
  PyStr.trimmed (_sanitize_token "  go to youtube ") /\
  _sanitize_token (_sanitize_token "  go to youtube ")
  = _sanitize_token "  go to youtube ".
Proof. exact (sanitize_token_clean "  go to youtube "). Defined.

Lemma create_agent_bounded_witness :
  let env := sample_env azure_vars false true 200%Z [] in
  let w' := snd (create_agent env "go to youtube" (Some "") 10 world0) in
  count is_agent (events w') <= count is_agent (events world0) + 2 /\
  attaches (events w') <= attaches (events world0) + 1 /\
  count is_agent (events w') <= count is_agent (events world0) + 1.
Proof.
  intros env w'.
  destruct (create_agent_bounded env "go to youtube" (Some "") 10 world0)
    as (H1 & H2 & H3).
  split; [exact H1|]. split; [exact H2 | exact (H3 eq_refl)].
Defined.

Lemma main_local_prints_once_witness :
  let env := sample_env azure_vars true false 200%Z [] in
  exists d,
    printed (events (snd (main_local env youtube_request false world0)))
    = printed (events world0) ++ [d].
Proof.
  intros env.
  destruct (main_local_prints_once env youtube_request false world0
              (snd (init env false false world0)) eq_refl)
    as (d & w2 & _ & _ & H).
  exists d. exact H.
Defined.

Lemma create_session_answer_witness :
  let env := sample_env [] true true 200%Z [] in
  create_session_via_api env world0
  = (Val (JStr "s1"),
     {| self := self world0;
        events := [EvPost SessionsCreate (JDict [])] |}).
Proof.
  intros env.
  destruct (create_session_answer env world0) as (v & Heq & _ & Hv).
  rewrite Heq.
  rewrite (Hv {| status := 200;
                 body_json := Returns (JDict [("sessionId", JStr "s1")]);
                 body_text := Returns "Internal Server Error" |}
              [("sessionId", JStr "s1")] (JStr "s1")
              eq_refl eq_refl eq_refl eq_refl).
  reflexivity.
Defined.

Lemma execute_via_api_answer_witness :
  let env := sample_env [] true true 200%Z [] in
  fst (execute_task_via_api env (JStr "s1") "go to youtube" 10 world0)
  = Val (JDict [("taskId", JStr "t1"); ("liveUrl", JStr "/live/s1")]).
Proof.
  intros env.
  destruct (execute_via_api_answer env (JStr "s1") "go to youtube" 10 world0)
    as (v & Heq & _ & Hv).
  rewrite Heq. cbn [fst].
  now rewrite (Hv {| status := 200;
                     body_json := Returns (JDict [("taskId", JStr "t1");
                                                  ("liveUrl", JStr "/live/s1")]);
                     body_text := Returns "" |}
                  [("taskId", JStr "t1"); ("liveUrl", JStr "/live/s1")]
                  eq_refl eq_refl eq_refl).
Defined.

Lemma monitor_answer_witness :
  let env := sample_env [] true true 200%Z [] in
  fst (monitor_task_progress env (JStr "s1") (JStr "t1") world0)
  = Val (JDict [("status", JStr "running")]).
Proof.
  intros env.
  destruct (monitor_answer env (JStr "s1") (JStr "t1") world0)
    as (v & Heq & _ & Hv).
  rewrite Heq. cbn [fst].
  now rewrite (Hv {| status := 200;
                     body_json := Returns (JDict [("status", JStr "running")]);
                     body_text := Returns "" |}
                  (JDict [("status", JStr "running")])
                  eq_refl eq_refl eq_refl).
Defined.

Lemma submission_failure_stops_witness :
  let env := with_post (staged_post 502 JNull)
               (sample_env [] true true 200%Z []) in
  main_api_try env youtube_request world0
  = (Val tt,
     {| self := self world0;
        events := [ EvPost SessionsCreate (JDict []);
                    EvPost BrowserUseExecute
                      (execute_payload (JStr "s1") "go to youtube" 10) ] |}).
Proof.
  intros env.
  apply (submission_failure_stops env youtube_request world0
           {| self := self world0;
              events := [EvPost SessionsCreate (JDict [])] |} (JStr "s1")).
  - reflexivity.
  - reflexivity.
  - cbn. discriminate.
Defined.

Lemma missing_task_id_skips_poll_witness :
  let env := with_post (staged_post 200 (JDict [("liveUrl", JStr "/live/s1")]))
               (sample_env [] true true 200%Z []) in
  main_api_try env youtube_request world0
  = (Val tt,
     {| self := self world0;
        events := [ EvPost SessionsCreate (JDict []);
                    EvPost BrowserUseExecute
                      (execute_payload (JStr "s1") "go to youtube" 10);
                    EvPrintJson (JDict [("liveUrl", JStr "/live/s1")]) ] |}).
Proof.
  intros env.
  apply (missing_task_id_skips_poll env youtube_request world0
           {| self := self world0;
              events := [EvPost SessionsCreate (JDict [])] |} (JStr "s1")
           {| status := 200;
              body_json := Returns (JDict [("liveUrl", JStr "/live/s1")]);
              body_text := Returns "Bad Gateway" |}
           [("liveUrl", JStr "/live/s1")]);
    try reflexivity.
  discriminate.
Defined.

Lemma main_api_remote_only_witness :
  let env := sample_env [] true true 200%Z [] in
  let w' := snd (main_api env youtube_request false world0) in
  count (fun e => negb (remote_event e)) (events w')
  = count (fun e => negb (remote_event e)) (events world0) /\
  agent (self w') = None.
Proof.
  intros env w'.
  destruct (main_api_remote_only env youtube_request false world0) as [H1 H2].
  split; [exact H1 | exact (H2 eq_refl)].
Defined.

Lemma setup_llm_idempotent_witness :
  let w := snd (setup_llm (world_with openai_settings)) in
  setup_llm w = (Val tt, w) /\
  (setup_llm ;; setup_llm) (world_with openai_settings)
  = setup_llm (world_with openai_settings).
Proof.
  intros w. split.
  - apply (proj1 (setup_llm_idempotent w)). discriminate.
  - apply (proj2 (setup_llm_idempotent (world_with openai_settings))).
Defined.

(** The default preference with the key of OpenAI alone. *)
Lemma other_providers_ignored_witness :
  let c := {| azure_api_key := None; azure_endpoint := None;
              azure_deployment := "gpt-4.1";
              api_version := "2024-08-01-preview";
              openai_api_key := Some "sk-test"; google_api_key := None;
              llm_provider := "azure"; headless := true;
              browser_port := 9222%Z |} in
  complete OpenAI c = true /\
  setup_llm (world_with c)
  = (Raise (Exception ValueError no_llm_message), world_with c).
Proof.
  intros c. split; [reflexivity|].
  apply other_providers_ignored; [reflexivity | reflexivity|].
  intros p Hp. injection Hp as <-. reflexivity.
Defined.

Lemma bad_browser_port_is_fatal_witness :
  let env := sample_env (("BROWSER_PORT", "auto") :: azure_vars)
               true true 200%Z [] in
  main env [script; "go to youtube"; "--api"] world0
  = (Raise (Exception ValueError
              "invalid literal for int() with base 10: 'auto'"), world0) /\
  main env [script; "go to youtube"] world0
  = (Raise (Exception ValueError
              "invalid literal for int() with base 10: 'auto'"), world0).
Proof.
  intros env. split.
  - apply (bad_browser_port_is_fatal env [script; "go to youtube"; "--api"]
             youtube_request world0); [|reflexivity].
    split; [cbn; lia | split; [vm_compute; lia | intros w; reflexivity]].
  - apply (bad_browser_port_is_fatal env [script; "go to youtube"]
             youtube_request world0); [|reflexivity].
    split; [cbn; lia | split; [vm_compute; lia | intros w; reflexivity]].
Defined.

Lemma api_key_masked_witness :
  List.length (PyStr.chars (shown_api_key (sample_env azure_vars true true 200%Z [])))
  <= 17 /\
  mask_key ("0123456789" ++ "secret-part" ++ "wxyz")
  = mask_key ("0123456789" ++ "X" ++ "wxyz").
Proof.
  destruct api_key_masked as [H1 H2].
  split; [apply H1|]. apply H2; [reflexivity | reflexivity | |]; discriminate.
Defined.

Lemma usage_tokens_additive_witness :
  option_map fst (usage_loop [sample_entry; other_entry] (0%Z, 0%float))
  = option_map fst (usage_loop [other_entry; sample_entry] (0%Z, 0%float)) /\
  exists u1 u2,
    usage_loop [sample_entry] (0%Z, 0%float) = Some u1 /\
    usage_loop [other_entry] (0%Z, 0%float) = Some u2 /\
    24%Z = (fst u1 + fst u2)%Z.
Proof.
  destruct usage_tokens_additive as (Hperm & Happ & _).
  split.
  - apply Hperm, perm_swap.
  - apply (Happ [sample_entry] [other_entry]
             (24%Z, S754_finite false 8762203435012036 (-61))).
    vm_compute. reflexivity.
Defined.

Lemma execute_task_try_delta_witness :
  let env := sample_env azure_vars true true 200%Z [other_entry] in
  exists d w' cost,
    execute_task_try env "go to youtube" None 10 world0 = (Val d, w') /\
    sum_cost [sample_entry] = Some cost /\
    field "token_usage" d
    = Some (JDict [ ("total_tokens", JInt 15); ("total_cost", JFloat cost);
                    ("model", JStr (llm_provider (settings (self w')))) ]).
Proof.
  intros env.
  destruct (execute_task_try_delta env "go to youtube" None 10 world0
              {| agent_task := "go to youtube"; agent_llm := None;
                 agent_max_steps := 10; agent_browser_session := None;
                 token_cost_service :=
                   Some {| usage_history := [other_entry] |};
                 browser := true |}
              (snd (create_agent env "go to youtube" None 10 world0)) 1
              (match fst (execute_task_try env "go to youtube" None 10 world0)
               with Val d => d | Raise _ => JNull end)
              (snd (execute_task_try env "go to youtube" None 10 world0))
              eq_refl eq_refl eq_refl)
    as (cost & Hcost & Hfield).
  exists (match fst (execute_task_try env "go to youtube" None 10 world0)
          with Val d => d | Raise _ => JNull end),
    (snd (execute_task_try env "go to youtube" None 10 world0)), cost.
  split; [vm_compute; reflexivity|].
  split; [exact Hcost | exact Hfield].
Defined.

Lemma execute_task_try_fresh_history_witness :
  let env := sample_env azure_vars true true 200%Z [] in
  exists d w',
    execute_task_try env "go to youtube" None 10 world0 = (Val d, w') /\
    field "token_usage" d
    = Some (JDict [ ("total_tokens", JInt 0); ("total_cost", JFloat 0);
                    ("model", JStr (llm_provider (settings (self w')))) ]).
Proof.
  intros env.
  exists (match fst (execute_task_try env "go to youtube" None 10 world0)
          with Val d => d | Raise _ => JNull end),
    (snd (execute_task_try env "go to youtube" None 10 world0)).
  split; [vm_compute; reflexivity|].
  apply (execute_task_try_fresh_history env "go to youtube" None 10 world0
           {| agent_task := "go to youtube"; agent_llm := None;
              agent_max_steps := 10; agent_browser_session := None;
              token_cost_service := Some {| usage_history := [] |};
              browser := true |}
           (snd (create_agent env "go to youtube" None 10 world0)));
    reflexivity.
Defined.

Lemma main_api_try_polls_twice_witness :
  let env := sample_env [] true true 200%Z [] in
  events (snd (main_api_try env youtube_request world0))
  = [ EvPost SessionsCreate (JDict []);
      EvPost BrowserUseExecute (execute_payload (JStr "s1") "go to youtube" 10) ]
    ++ [ EvGet (BrowserUseStatus (JStr "t1"));
         EvGet (BrowserUseStatus (JStr "t1"));
         EvPrintJson (JDict [("taskId", JStr "t1");
                             ("liveUrl", JStr "/live/s1")]) ].
Proof.
  intros env.
  apply (main_api_try_polls_twice env youtube_request world0 (JStr "s1")
           {| self := self world0;
              events := [EvPost SessionsCreate (JDict [])] |}
           (JDict [("taskId", JStr "t1"); ("liveUrl", JStr "/live/s1")])
           {| self := self world0;
              events := [ EvPost SessionsCreate (JDict []);
                          EvPost BrowserUseExecute
                            (execute_payload (JStr "s1") "go to youtube" 10) ] |}
           (JStr "t1")); reflexivity.
Defined.
